(** * surveyor: the option-to-specification core of [help.py]

    A shallow embedding of [help.py]: the backend table [EDR_DEETS], the two
    builders ([credential_builder], [product_arg_builder]), the two structural
    checks ([check_credentials_structure], [check_product_args_structure]) and
    the orchestrator [build_survey] with the [logger] it calls.

    Python values are a small universe [value]; a [dict] is an association
    list in insertion order; [sys.exit] and exceptions are explicit outcomes;
    the file system and the root logger of the process are an oracle record,
    and every access to a file, by name or by descriptor, is recorded in a
    trace. *)

From Stdlib Require Import String Ascii List Bool ZArith Lia.
Import ListNotations.
Open Scope string_scope.

(** ** Python values *)

#[warnings="-register-all"]
Inductive value : Type :=
| VNone
| VBool (b : bool)
| VInt (z : Z)
| VStr (s : string)
| VList (l : list value)
| VSet (l : list string)
| VDict (d : list (string * value)).

(** A [dict] with string keys, in insertion order. *)
Definition dict := list (string * value).

(** Python truth value ([if v], [not v], [v and w]). *)
Definition truthy (v : value) : bool :=
  match v with
  | VNone => false
  | VBool b => b
  | VInt z => negb (Z.eqb z 0)
  | VStr s => negb (String.eqb s EmptyString)
  | VList l => match l with [] => false | _ => true end
  | VSet l => match l with [] => false | _ => true end
  | VDict d => match d with [] => false | _ => true end
  end.

(** [v is None]; on this universe [v != None] is its negation. *)
Definition is_none (v : value) : bool :=
  match v with VNone => true | _ => false end.

(** [v == s] for a string literal [s]. *)
Definition eq_str (v : value) (s : string) : bool :=
  match v with VStr s' => String.eqb s' s | _ => false end.

(** The one-character string holding a double quote. *)
Definition dquote : string := String (ascii_of_nat 34) EmptyString.

(** [s in l] for a list of strings. *)
Definition mem (s : string) (l : list string) : bool :=
  existsb (String.eqb s) l.

(** ** Dictionaries *)

Fixpoint dict_get (k : string) (d : dict) : option value :=
  match d with
  | [] => None
  | (k', v) :: d' => if String.eqb k k' then Some v else dict_get k d'
  end.

(** [d[k] = v]: an existing key keeps its place, a new one goes last. *)
Fixpoint dict_set (k : string) (v : value) (d : dict) : dict :=
  match d with
  | [] => [(k, v)]
  | (k', v') :: d' =>
      if String.eqb k k' then (k', v) :: d' else (k', v') :: dict_set k v d'
  end.

(** [d.pop(k)]: the value and the dictionary without the key. *)
Fixpoint dict_pop (k : string) (d : dict) : option (value * dict) :=
  match d with
  | [] => None
  | (k', v) :: d' =>
      if String.eqb k k' then Some (v, d')
      else match dict_pop k d' with
           | Some (w, d'') => Some (w, (k', v) :: d'')
           | None => None
           end
  end.

Definition dict_keys (d : dict) : list string := map fst d.

(** [d.update(e)]. *)
Definition dict_update (e d : dict) : dict :=
  fold_left (fun acc kv => dict_set (fst kv) (snd kv) acc) e d.

(** [{k: v for k, v in d.items() if v != None}]. *)
Definition drop_none (d : dict) : dict :=
  filter (fun kv => negb (is_none (snd kv))) d.

(** ** Outcomes: a value, [sys.exit(msg)], or an exception *)

Inductive exn : Type :=
| AttributeError (name : string)
| KeyError (key : string)
| TypeError
| OSError
| OverflowError
| ValueError.

Inductive outcome (A : Type) : Type :=
| Return (a : A)
| Exit (msg : string)
| Raise (e : exn).
Arguments Return {A} a.
Arguments Exit {A} msg.
Arguments Raise {A} e.

Definition obind {A B} (m : outcome A) (f : A -> outcome B) : outcome B :=
  match m with
  | Return a => f a
  | Exit msg => Exit msg
  | Raise e => Raise e
  end.

Declare Scope out_scope.
Delimit Scope out_scope with out.
Notation "x <- m ;; k" := (obind m (fun x => k))
  (at level 61, m at next level, right associativity) : out_scope.

(** [args.name] on an [argparse.Namespace] whose [__dict__] is [args]. *)
Definition getattr (args : dict) (name : string) : outcome value :=
  match dict_get name args with
  | Some v => Return v
  | None => Raise (AttributeError name)
  end.

(** ** The backend table *)

Record edr_details : Type := {
  full_name : string;
  required_credentials : string;
  product_arguments : option (list string)
}.

Definition cbc_details : edr_details := {|
  full_name := "VMware Carbon Black Cloud Enterprise EDR (CBC)";
  required_credentials := "VMware Carbon Black Cloud Enterprise EDR requires a URL, token, and org_key or a credential file located following the documentation at: https://github.com/redcanaryco/surveyor/wiki/Getting-started";
  product_arguments := Some ["device_group"; "device_policy"] |}.

Definition cbr_details : edr_details := {|
  full_name := "VMware Carbon Black EDR (CBr)";
  required_credentials := "VMware Carbon Black EDR requires a URL and token or a credential file located following the documentation at: https://github.com/redcanaryco/surveyor/wiki/Getting-started";
  product_arguments := Some ["sensor_group"] |}.

Definition cortex_details : edr_details := {|
  full_name := "Cortex XDR (Cortex)";
  required_credentials := "Cortex XDR requires a URL, api_key, api_key_id, and auth_type or a credential file and profile to be passed";
  product_arguments := None |}.

Definition dfe_details : edr_details := {|
  full_name := "Microsoft Defender for Endpoint (DFE)";
  required_credentials := "Microsoft Defender for Endpoint requires a token or all of 'tenantId', 'appId', and 'appSecret', or a credential file and profile to be passed";
  product_arguments := None |}.

Definition s1_details : edr_details := {|
  full_name := "SentinelOne (S1)";
  required_credentials := "SentinelOne requires a URL and token and one of the following site_ids, account_ids, or account_names, or a credential file and profile to be passed";
  product_arguments := Some ["deep_visibility"] |}.

(** [EDR_DEETS.get(edr, None)]. *)
Definition EDR_DEETS (edr : string) : option edr_details :=
  if String.eqb edr "cbc" then Some cbc_details
  else if String.eqb edr "cbr" then Some cbr_details
  else if String.eqb edr "cortex" then Some cortex_details
  else if String.eqb edr "dfe" then Some dfe_details
  else if String.eqb edr "s1" then Some s1_details
  else None.

(** [EDR_DEETS[edr]]. *)
Definition EDR_DEETS_item (edr : string) : outcome edr_details :=
  match EDR_DEETS edr with
  | Some d => Return d
  | None => Raise (KeyError edr)
  end.

(** The entry's ["product_arguments"] as a Python value: a list or [None]. *)
Definition product_arguments_value (d : edr_details) : value :=
  match product_arguments d with
  | Some l => VList (map VStr l)
  | None => VNone
  end.

(** ** Sets of strings *)

(** [set(l)] for a list of strings: one copy of each element. *)
Fixpoint set_of (l : list string) : list string :=
  match l with
  | [] => []
  | x :: l' => if mem x l' then set_of l' else x :: set_of l'
  end.

(** [set(edr_details['product_arguments'])]: [set(None)] is a [TypeError]. *)
Definition set_of_product_arguments (d : edr_details) : outcome (list string) :=
  match product_arguments d with
  | Some l => Return (set_of l)
  | None => Raise TypeError
  end.

Definition set_diff (a b : list string) : list string :=
  filter (fun x => negb (mem x b)) a.

Definition set_inter (a b : list string) : list string :=
  filter (fun x => mem x b) a.

Definition nonempty {A} (l : list A) : bool :=
  match l with [] => false | _ => true end.

(** ** The structural checks *)

Definition check_product_args_structure (edr : string) (product_args : dict)
  : outcome dict :=
  (edr_details <- EDR_DEETS_item edr ;;
   let base := [("result", VBool false);
                ("edr", VStr (full_name edr_details));
                ("required_fields", product_arguments_value edr_details);
                ("incompatible_arguments", VNone)] in
   if negb (truthy (VDict product_args)) then
     Return (dict_update [("result", VBool true);
                          ("required_fields", VStr "No arguments were supplied")]
                         base)
   else
     let product_check := set_of (dict_keys product_args) in
     required_fields_set <- set_of_product_arguments edr_details ;;
     let incompatible_arguments := set_diff required_fields_set product_check in
     let compatible_arguments := set_inter required_fields_set product_check in
     let base := if nonempty compatible_arguments
                 then dict_set "result" (VBool true) base else base in
     let base := if nonempty incompatible_arguments
                 then dict_set "incompatible_arguments"
                               (VSet incompatible_arguments) base
                 else base in
     Return base)%out.

(** [[k for k, v in creds.items() if v]]. *)
Definition cred_check_of (creds : dict) : list string :=
  map fst (filter (fun kv => truthy (snd kv)) creds).

(** [all(field in cred_check for field in fields)]. *)
Definition all_in (fields cred_check : list string) : bool :=
  forallb (fun field => mem field cred_check) fields.

(** [any(field in cred_check for field in fields)]. *)
Definition any_in (fields cred_check : list string) : bool :=
  existsb (fun field => mem field cred_check) fields.

Definition required_credentials_item (edr : string) : outcome value :=
  (d <- EDR_DEETS_item edr ;; Return (VStr (required_credentials d)))%out.

Definition check_credentials_structure (edr : string) (creds : dict)
  : outcome dict :=
  let cred_check := cred_check_of creds in
  let state := false in
  if mem edr ["cbc"; "cbr"] && mem "creds_file" cred_check then
    (r <- required_credentials_item edr ;;
     Return [("result", VBool true); ("edr", VStr edr); ("required_fields", r)])%out
  else if mem "creds_file" cred_check && mem "profile" cred_check then
    let state := true in
    Return [("result", VBool state); ("edr", VStr edr);
            ("required_fields",
             VStr "A profile and path to a credentials file argument have been supplied")]
  else
    let final (state : bool) : outcome dict :=
      (r <- required_credentials_item edr ;;
       Return [("result", VBool state); ("edr", VStr edr); ("required_fields", r)])%out in
    if String.eqb edr "cbc" && all_in ["url"; "token"; "org_key"] cred_check then
      final true
    else if String.eqb edr "cbr" && all_in ["url"; "token"] cred_check then
      final true
    else if String.eqb edr "cortex"
            && all_in ["api_key"; "url"; "api_key_id"; "auth_type"] cred_check then
      final true
    else if String.eqb edr "dfe"
            && (mem "token" cred_check
                || all_in ["tenantId"; "appId"; "appSecret"] cred_check) then
      final true
    else if String.eqb edr "s1" && all_in ["url"; "token"] cred_check
            && any_in ["site_ids"; "account_ids"; "account_names"] cred_check then
      final true
    else if match EDR_DEETS edr with None => true | Some _ => false end then
      Return [("result", VBool state);
              ("edr", VStr (edr ++ " is not a supported EDR"));
              ("required_fields", VNone)]
    else final state.

(** ** The builders *)

(** [s.lower()]: a string is its sequence of code points, all below 256;
    there the upper-case letters are A-Z and U+00C0-U+00DE without U+00D7. *)
Definition lower_ascii (c : ascii) : ascii :=
  let n := nat_of_ascii c in
  if ((65 <=? n)%nat && (n <=? 90)%nat)
     || ((192 <=? n)%nat && (n <=? 222)%nat && negb (n =? 215)%nat)
  then ascii_of_nat (n + 32) else c.

Fixpoint lower (s : string) : string :=
  match s with
  | EmptyString => EmptyString
  | String c s' => String (lower_ascii c) (lower s')
  end.

(** [v.lower()]: only a string has the method. *)
Definition value_lower (v : value) : outcome value :=
  match v with
  | VStr s => Return (VStr (lower s))
  | _ => Raise (AttributeError "lower")
  end.

(** [if args.name: d[key] = args.name]. *)
Definition set_if_supplied (args : dict) (name key : string) (d : dict)
  : outcome dict :=
  (v <- getattr args name ;;
   Return (if truthy v then dict_set key v d else d))%out.

Definition credential_builder (args : dict) : outcome value :=
  let cbr_creds := [("profile", VStr "default")] in
  let cbc_creds := [("profile", VStr "default")] in
  let cortex_creds := [("profile", VStr EmptyString); ("auth_type", VStr "standard");
                       ("tenant_ids", VList []); ("creds_file", VStr EmptyString)] in
  let dfe_creds := [("profile", VStr EmptyString); ("creds_file", VStr EmptyString)] in
  let s1_creds := [("profile", VStr EmptyString); ("site_ids", VList []);
                   ("account_ids", VList []); ("account_names", VList []);
                   ("creds_file", VStr EmptyString)] in
  (edr <- getattr args "edr" ;;
   if eq_str edr "cbc" then
     cbc_creds <- set_if_supplied args "profile" "profile" cbc_creds ;;
     Return (VDict cbc_creds)
   else
   edr <- getattr args "edr" ;;
   if eq_str edr "cbr" then
     cbr_creds <- set_if_supplied args "profile" "profile" cbr_creds ;;
     Return (VDict cbr_creds)
   else
   creds <- getattr args "creds" ;;
   both <- (if truthy creds
            then (profile <- getattr args "profile" ;; Return (truthy profile))
            else Return false) ;;
   missing <- (if negb both
               then (edr <- getattr args "edr" ;;
                     Return (eq_str edr "cortex" || eq_str edr "dfe"
                             || eq_str edr "s1"))
               else Return false) ;;
   if missing then
     Exit "Cortex, S1, and DFE need to be passed the location to a credentials file, and a profile"
   else
   edr <- getattr args "edr" ;;
   if eq_str edr "cortex" then
     profile <- getattr args "profile" ;;
     let cortex_creds := dict_set "profile" profile cortex_creds in
     creds <- getattr args "creds" ;;
     let cortex_creds := dict_set "creds_file" creds cortex_creds in
     auth_type <- getattr args "auth_type" ;;
     cortex_creds <- (if truthy auth_type
                      then (a <- value_lower auth_type ;;
                            Return (dict_set "auth_type" a cortex_creds))
                      else Return cortex_creds) ;;
     cortex_creds <- set_if_supplied args "tenant_ids" "tenant_ids" cortex_creds ;;
     Return (VDict cortex_creds)
   else
   edr <- getattr args "edr" ;;
   if eq_str edr "dfe" then
     profile <- getattr args "profile" ;;
     let dfe_creds := dict_set "profile" profile dfe_creds in
     creds <- getattr args "creds" ;;
     let dfe_creds := dict_set "creds_file" creds dfe_creds in
     Return (VDict dfe_creds)
   else
   edr <- getattr args "edr" ;;
   if eq_str edr "s1" then
     profile <- getattr args "profile" ;;
     let s1_creds := dict_set "profile" profile s1_creds in
     creds <- getattr args "creds" ;;
     let s1_creds := dict_set "creds_file" creds s1_creds in
     s1_creds <- set_if_supplied args "site_ids" "site_ids" s1_creds ;;
     s1_creds <- set_if_supplied args "account_ids" "account_ids" s1_creds ;;
     s1_creds <- set_if_supplied args "account_names" "account_names" s1_creds ;;
     Return (VDict s1_creds)
   else
     Return VNone)%out.

Definition product_arg_builder (args : dict) : outcome dict :=
  let cbr_product_args := [("sensor_group", VNone)] in
  let cbc_product_args := [("device_group", VNone); ("device_policy", VNone)] in
  let s1_product_args := [("deep_visibility", VNone)] in
  (edr <- getattr args "edr" ;;
   if eq_str edr "cbc" then
     cbc_product_args <-
       set_if_supplied args "device_group" "device_group" cbc_product_args ;;
     cbc_product_args <-
       set_if_supplied args "device_policy" "device_policy" cbc_product_args ;;
     Return (drop_none cbc_product_args)
   else
   sensor_group <- getattr args "sensor_group" ;;
   if truthy sensor_group then
     sensor_group <- getattr args "sensor_group" ;;
     let cbr_product_args := dict_set "sensor_group" sensor_group cbr_product_args in
     Return (drop_none cbr_product_args)
   else
   dv <- getattr args "dv" ;;
   if truthy dv then
     let s1_product_args := dict_set "deep_visibility" (VBool true) s1_product_args in
     Return (drop_none s1_product_args)
   else
     Return [])%out.

(** ** Strings and POSIX paths *)

Definition ends_with (suffix s : string) : bool :=
  let n := String.length s in
  let m := String.length suffix in
  (m <=? n)%nat && String.eqb (substring (n - m) m s) suffix.

Definition starts_with (pre s : string) : bool := String.prefix pre s.

(** [s.rfind(c)] for one character: the last index, or -1. *)
Fixpoint rfind_from (c : ascii) (s : string) (i last : Z) : Z :=
  match s with
  | EmptyString => last
  | String c' s' =>
      rfind_from c s' (i + 1)%Z (if Ascii.eqb c c' then i else last)
  end.

Definition rfind (c : ascii) (s : string) : Z := rfind_from c s 0%Z (-1)%Z.

(** [p[i:]] and [p[:i]] for [0 <= i]. *)
Definition slice_from (i : Z) (p : string) : string :=
  substring (Z.to_nat i) (String.length p - Z.to_nat i) p.

Definition slice_to (i : Z) (p : string) : string :=
  substring 0 (Z.to_nat i) p.

(** One step of [posixpath.join]. *)
Definition join (path b : string) : string :=
  if starts_with "/" b then b
  else if String.eqb path EmptyString || ends_with "/" path then path ++ b
  else path ++ "/" ++ b.

(** [posixpath.basename]. *)
Definition basename (p : string) : string :=
  slice_from (rfind "/"%char p + 1)%Z p.

(** The [while] loop of [genericpath._splitext]: does it find a character
    other than a dot before [dotIndex]? *)
Fixpoint splitext_scan (p : string) (filenameIndex todo : nat) : bool :=
  match todo with
  | O => false
  | S todo' =>
      if negb (String.eqb (substring filenameIndex 1 p) ".") then true
      else splitext_scan p (S filenameIndex) todo'
  end.

(** [posixpath.splitext]. *)
Definition splitext (p : string) : string * string :=
  let sepIndex := rfind "/"%char p in
  let dotIndex := rfind "."%char p in
  if (sepIndex <? dotIndex)%Z
     && splitext_scan p (Z.to_nat (sepIndex + 1))
                      (Z.to_nat (dotIndex - (sepIndex + 1)))
  then (slice_to dotIndex p, slice_from dotIndex p)
  else (p, EmptyString).

(** [str.isspace] on code points below 256. *)
Definition is_space (c : ascii) : bool :=
  let n := nat_of_ascii c in
  ((9 <=? n) && (n <=? 13) || (28 <=? n) && (n <=? 32)
   || (n =? 133) || (n =? 160))%nat.

Fixpoint lstrip (s : string) : string :=
  match s with
  | EmptyString => EmptyString
  | String c s' => if is_space c then lstrip s' else s
  end.

Fixpoint rstrip (s : string) : string :=
  match s with
  | EmptyString => EmptyString
  | String c s' =>
      match rstrip s' with
      | EmptyString => if is_space c then EmptyString else String c EmptyString
      | r => String c r
      end
  end.

(** [s.strip()]. *)
Definition strip (s : string) : string := rstrip (lstrip s).

(** ** The world outside: file system, clock, formatting *)

Inductive event : Type :=
| EvIsFile (p : string)
| EvIsDir (p : string)
| EvExists (p : string)
| EvWalk (p : string)
| EvRead (p : string)
| EvMakedirs (p : string)
| EvOpenLog (p : string)
| EvLogRecord (p msg : string)
| EvStatFd (fd : Z)
| EvOpenFd (fd : Z)
| EvReadFd (fd : Z).

Definition trace := list event.

(** The effects that create or write something. *)
Definition is_write (e : event) : bool :=
  match e with
  | EvMakedirs _ | EvOpenLog _ | EvLogRecord _ _ => true
  | _ => false
  end.

(** What the operating system and the process answer.  Every answer may
    depend on the effects so far (a directory exists once [os.makedirs] made
    it).  The [fd_] fields answer for an open file descriptor where the fields
    above them answer for a path name.  [root_log_files] gives the files that
    the handlers of the root logger append a DEBUG record to: none in a fresh
    process, the log file of the last run once [logger] has been called. *)
Record world : Type := {
  isfile : trace -> string -> bool;
  isdir : trace -> string -> bool;
  path_exists : trace -> string -> bool;
  walk : trace -> string -> list (string * list string * list string);
  readlines : trace -> string -> option (list string);
  makedirs_ok : trace -> string -> bool;
  open_log_ok : trace -> string -> bool;
  module_dir : string;
  utcnow : string;
  str_of : value -> string;
  fd_isfile : trace -> Z -> bool;
  fd_isdir : trace -> Z -> bool;
  fd_exists : trace -> Z -> bool;
  fd_open_ok : trace -> Z -> bool;
  fd_readlines : trace -> Z -> option (list string);
  root_log_files : trace -> list string
}.

(** The trace after one more effect. *)
Definition record (t : trace) (e : event) : trace := (t ++ [e])%list.

(** Effectful code: it extends the trace and ends in an outcome. *)
Definition M (A : Type) : Type := trace -> outcome A * trace.

Definition ret {A} (a : A) : M A := fun t => (Return a, t).

Definition bind {A B} (m : M A) (f : A -> M B) : M B :=
  fun t =>
    match m t with
    | (Return a, t') => f a t'
    | (Exit msg, t') => (Exit msg, t')
    | (Raise e, t') => (Raise e, t')
    end.

Definition lift {A} (o : outcome A) : M A := fun t => (o, t).

(** [sys.exit(msg)]. *)
Definition sys_exit {A} (msg : string) : M A := lift (Exit msg).

Declare Scope fs_scope.
Delimit Scope fs_scope with fs.
Notation "x <- m ;; k" := (bind m (fun x => k))
  (at level 61, m at next level, right associativity) : fs_scope.
Notation "m ;;; k" := (bind m (fun _ => k))
  (at level 61, right associativity) : fs_scope.

(** [os.fspath(v)], as [os.makedirs], [os.walk], [os.path.join] and
    [os.path.basename] apply it: a string is a path, every other value of
    the universe is rejected with [TypeError]. *)
Definition as_path (v : value) : outcome string :=
  match v with
  | VStr s => Return s
  | _ => Raise TypeError
  end.

(** What [os.stat] and [open] take: a path name or a file descriptor. *)
Inductive path_arg : Type :=
| PathName (p : string)
| PathFd (fd : Z).

(** The bounds of a C [int]. *)
Definition INT_MIN : Z := (-2147483648)%Z.
Definition INT_MAX : Z := 2147483647%Z.

(** The argument of [os.stat] and of [open]: a string is a path name, an
    integer (a bool is one) is a file descriptor when it fits a C [int] and an
    [OverflowError] otherwise, every other value is a [TypeError]. *)
Definition name_or_fd (v : value) : outcome path_arg :=
  match v with
  | VStr s => Return (PathName s)
  | VInt z =>
      if (INT_MIN <=? z)%Z && (z <=? INT_MAX)%Z then Return (PathFd z)
      else Raise OverflowError
  | VBool b => Return (PathFd (if b then 1 else 0)%Z)
  | _ => Raise TypeError
  end.

Definition query (w : world) (ask : world -> trace -> string -> bool)
    (ev : string -> event) (p : string) : M bool :=
  fun t => (Return (ask w t p), record t (ev p)).

(** The answer of the world for a path name or a descriptor. *)
Definition answer (ask : world -> trace -> string -> bool)
    (ask_fd : world -> trace -> Z -> bool) (w : world) (t : trace)
    (a : path_arg) : bool :=
  match a with
  | PathName p => ask w t p
  | PathFd fd => ask_fd w t fd
  end.

(** A test built on [os.stat]: it answers for a name or for a descriptor,
    and [os.stat] errors other than those of the argument read as False. *)
Definition stat_query (w : world) (ask : world -> trace -> string -> bool)
    (ask_fd : world -> trace -> Z -> bool) (ev : string -> event)
    (v : value) : M bool :=
  (a <- lift (name_or_fd v) ;;
   match a with
   | PathName p => query w ask ev p
   | PathFd fd => fun t => (Return (ask_fd w t fd), record t (EvStatFd fd))
   end)%fs.

Definition os_path_isfile (w : world) (v : value) : M bool :=
  stat_query w isfile fd_isfile EvIsFile v.

Definition os_path_isdir (w : world) (v : value) : M bool :=
  stat_query w isdir fd_isdir EvIsDir v.

Definition os_path_exists (w : world) (v : value) : M bool :=
  stat_query w path_exists fd_exists EvExists v.

Definition os_walk (w : world) (v : value)
  : M (list (string * list string * list string)) :=
  (p <- lift (as_path v) ;; fun t => (Return (walk w t p), record t (EvWalk p)))%fs.

(** An open file: a named file with the lines it holds when it is opened,
    or a file descriptor. *)
Inductive file_handle : Type :=
| FileName (p : string) (lines : list string)
| FileFd (fd : Z).

(** [open(v)]: a path name or a descriptor; a negative descriptor is a
    [ValueError]. *)
Definition open_file (w : world) (v : value) : M file_handle :=
  (a <- lift (name_or_fd v) ;;
   match a with
   | PathName p =>
       fun t => match readlines w t p with
                | Some data => (Return (FileName p data), record t (EvRead p))
                | None => (Raise OSError, record t (EvRead p))
                end
   | PathFd fd =>
       if (fd <? 0)%Z then lift (Raise ValueError)
       else fun t => if fd_open_ok w t fd
                     then (Return (FileFd fd), record t (EvOpenFd fd))
                     else (Raise OSError, record t (EvOpenFd fd))
   end)%fs.

(** [f.readlines()]. *)
Definition file_readlines (w : world) (f : file_handle) : M (list string) :=
  match f with
  | FileName _ data => ret data
  | FileFd fd =>
      fun t => match fd_readlines w t fd with
               | Some data => (Return data, record t (EvReadFd fd))
               | None => (Raise OSError, record t (EvReadFd fd))
               end
  end.

(** [os.makedirs(p, exist_ok=True)]. *)
Definition os_makedirs (w : world) (v : value) : M unit :=
  (p <- lift (as_path v) ;;
   fun t => if makedirs_ok w t p then (Return tt, record t (EvMakedirs p))
            else (Raise OSError, record t (EvMakedirs p)))%fs.

(** [logging.FileHandler(p)]: the file is opened for appending. *)
Definition FileHandler (w : world) (p : string) : M unit :=
  fun t => if open_log_ok w t p then (Return tt, record t (EvOpenLog p))
           else (Raise OSError, record t (EvOpenLog p)).

(** [log.debug(msg)]: the record reaches the root logger's file handler. *)
Definition log_debug (log : string) (msg : string) : M unit :=
  fun t => (Return tt, record t (EvLogRecord log msg)).

(** [logging.debug(msg)]: a record for every file that a handler of the
    root logger writes to. *)
Definition logging_debug (w : world) (msg : string) : M unit :=
  fun t =>
    (Return tt, (t ++ map (fun file => EvLogRecord file msg) (root_log_files w t))%list).

(** [logger]: the returned logger is known by the file it writes to.  Its
    first statement logs through the root logger as the process has it: in a
    fresh process nothing is written, after an earlier call the record goes to
    the log file of that call. *)
Definition logger (w : world) (edr : value) (logs_dir : value) : M string :=
  (logging_debug w ("Product: " ++ str_of w edr) ;;;
   os_makedirs w logs_dir ;;;
   let log_file_name := utcnow w ++ "." ++ str_of w edr ++ ".log" in
   d <- lift (as_path logs_dir) ;;
   let file := join d log_file_name in
   FileHandler w file ;;;
   ret file)%fs.

(** ** The survey specification builder *)

Definition survey_payload_init : dict :=
  [("prefix", VNone); ("days", VNone); ("minutes", VNone); ("limit", VNone);
   ("hostname", VNone); ("username", VNone); ("query", VNone);
   ("output", VNone); ("no_file", VBool true); ("no_progress", VBool false);
   ("log_dir", VNone); ("log", VNone); ("ioc_list", VNone);
   ("ioc_source", VNone); ("ioc_type", VNone); ("definitions", VNone);
   ("sigma_rules", VNone); ("products_args", VNone);
   ("output_format", VStr "csv")].

(** One round of the loop over [args.__dict__.items()]:
    [survey_payload[k] = v if v != None else survey_payload.pop(k)].
    With [v] None the key is popped and set again to the popped value. *)
Definition merge_option (survey_payload : dict) (kv : string * value) : dict :=
  let (k, v) := kv in
  if mem k (dict_keys survey_payload) then
    if negb (is_none v) then dict_set k v survey_payload
    else match dict_pop k survey_payload with
         | Some (popped, rest) => dict_set k popped rest
         | None => survey_payload
         end
  else survey_payload.

Definition merge_options (args : dict) : dict :=
  fold_left merge_option args survey_payload_init.

Definition attr (args : dict) (name : string) : M value :=
  lift (getattr args name).

(** [args.name] in a boolean position. *)
Definition attr_true (args : dict) (name : string) : M bool :=
  (v <- attr args name ;; ret (truthy v))%fs.

(** [a and b] and [a or b] in a boolean position: [b] is evaluated only
    when [a] does not decide. *)
Definition and_then (a b : M bool) : M bool :=
  (x <- a ;; if x then b else ret false)%fs.

Definition or_else (a b : M bool) : M bool :=
  (x <- a ;; if x then ret true else b)%fs.

(** [if c: sys.exit(msg)]. *)
Definition exit_if (c : M bool) (msg : string) : M unit :=
  (x <- c ;; if x then sys_exit msg else ret tt)%fs.

Definition not_ (c : M bool) : M bool := (x <- c ;; ret (negb x))%fs.

(** The option checks that precede the call of [logger]. *)
Definition validate_options (w : world) (args : dict) (edr : string) : M unit :=
  let sigma := or_else (attr_true args "sigmarule") (attr_true args "sigmadir") in
  (exit_if (and_then (attr_true args "iocfile")
                     (v <- attr args "ioctype" ;; ret (is_none v)))
           "--iocfile requires --ioctype" ;;;
   exit_if (and_then (attr_true args "iocfile")
                     (not_ (v <- attr args "ioc_file" ;; os_path_isfile w v)))
           "Supplied --iocfile is not a file" ;;;
   exit_if (and_then (or_else (attr_true args "output") (attr_true args "prefix"))
                     (attr_true args "no_file"))
           "--output and --prefix cannot be used with --no-file" ;;;
   exit_if (and_then (attr_true args "days") (attr_true args "minutes"))
           "--days and --minutes are mutually exclusive" ;;;
   exit_if (and_then sigma (ret (String.eqb edr "cortex")))
           ("Neither --sigmarule nor --sigmadir are supported by product "
            ++ dquote ++ "cortex" ++ dquote) ;;;
   exit_if (and_then (and_then sigma (ret (String.eqb edr "s1")))
                     (not_ (attr_true args "dv")))
           "Neither --sigmarule nor --sigmadir are supported by SentinelOne PowerQuery" ;;;
   exit_if (and_then (attr_true args "sigmarule")
                     (not_ (v <- attr args "sigmarule" ;; os_path_isfile w v)))
           "Supplied --sigmarule is not a file" ;;;
   exit_if (and_then (attr_true args "sigmadir")
                     (not_ (v <- attr args "sigmadir" ;; os_path_isdir w v)))
           "Supplied --sigmadir is not a directory")%fs.

(** The files of a walk whose extension is [ext], each joined to its
    directory, in the order of the walk. *)
Definition walk_files (ext : string)
    (entries : list (string * list string * list string)) : list value :=
  flat_map
    (fun entry =>
       let '(root_dir, dirs, files) := entry in
       map (fun filename => VStr (join root_dir filename))
           (filter (fun filename => String.eqb (snd (splitext filename)) ext)
                   files))
    entries.

(** [if args.deffile: ...]: the arguments (with [args.deffile] possibly
    replaced) and the definition files found so far. *)
Definition resolve_deffile (w : world) (log : string) (args : dict)
  : M (dict * list value) :=
  (supplied <- attr_true args "deffile" ;;
   if supplied then
     deffile <- attr args "deffile" ;;
     found <- os_path_exists w deffile ;;
     args <- (if negb found then
                deffile <- attr args "deffile" ;;
                name <- lift (as_path deffile) ;;
                let repo_deffile :=
                  join (join (module_dir w) "definitions") name in
                let repo_deffile :=
                  if negb (ends_with ".json" repo_deffile)
                  then repo_deffile ++ ".json" else repo_deffile in
                is_file <- os_path_isfile w (VStr repo_deffile) ;;
                if is_file then
                  log_debug log ("Using repo definition file " ++ repo_deffile) ;;;
                  ret (dict_set "deffile" (VStr repo_deffile) args)
                else sys_exit "The deffile doesn't exist. Please try again."
              else ret args) ;;
     deffile <- attr args "deffile" ;;
     ret (args, [deffile])
   else ret (args, []))%fs.

(** [if args.defdir: ...]. *)
Definition resolve_defdir (w : world) (args : dict)
    (definition_files : list value) : M (list value) :=
  (supplied <- attr_true args "defdir" ;;
   if supplied then
     found <- (defdir <- attr args "defdir" ;; os_path_exists w defdir) ;;
     if negb found then sys_exit "The defdir doesn't exist. Please try again."
     else
       defdir <- attr args "defdir" ;;
       entries <- os_walk w defdir ;;
       ret (definition_files ++ walk_files ".json" entries)%list
   else ret definition_files)%fs.

(** [if args.sigmarule: ...] and [if args.sigmadir: ...]. *)
Definition resolve_sigma_rules (w : world) (args : dict) : M (list value) :=
  (supplied <- attr_true args "sigmarule" ;;
   sigma_rules <- (if supplied
                   then (sigmarule <- attr args "sigmarule" ;; ret [sigmarule])
                   else ret []) ;;
   supplied <- attr_true args "sigmadir" ;;
   if supplied then
     sigmadir <- attr args "sigmadir" ;;
     entries <- os_walk w sigmadir ;;
     ret (sigma_rules ++ walk_files ".yml" entries)%list
   else ret sigma_rules)%fs.

(** [if args.iocfile: ...]: the IOC entries put into the payload. *)
Definition load_iocs (w : world) (args : dict) (survey_payload : dict) : M dict :=
  (supplied <- attr_true args "iocfile" ;;
   if supplied then
     iocfile <- attr args "iocfile" ;;
     ioc_file <- open_file w iocfile ;;
     iocfile <- attr args "iocfile" ;;
     name <- lift (as_path iocfile) ;;
     let ioc_source := basename name in
     data <- file_readlines w ioc_file ;;
     let ioc_list := map (fun x => VStr (strip x)) data in
     ioctype <- attr args "ioctype" ;;
     ret (dict_update [("ioc_source", VStr ioc_source);
                       ("ioc_list", VList ioc_list);
                       ("ioc_type", ioctype)] survey_payload)
   else ret survey_payload)%fs.

(** [build_survey] after the call of [logger], up to the assignment of
    ['product_args']: [log] is the logger, [survey_payload] the payload as
    the loop over the options left it. *)
Definition assemble_payload (w : world) (log : string) (args : dict)
    (survey_payload : dict) : M dict :=
  (r <- resolve_deffile w log args ;;
   let (args, definition_files) := r : dict * list value in
   definition_files <- resolve_defdir w args definition_files ;;
   let definitions : dict := [] in
   let survey_payload :=
     if truthy (VDict definitions)
     then dict_set "definitions" (VDict definitions) survey_payload
     else survey_payload in
   sigma_rules <- resolve_sigma_rules w args ;;
   let survey_payload :=
     if truthy (VList sigma_rules)
     then dict_set "sigma_rules" (VList sigma_rules) survey_payload
     else survey_payload in
   survey_payload <- load_iocs w args survey_payload ;;
   product_args <- lift (product_arg_builder args) ;;
   ret (dict_set "product_args" (VDict product_args) survey_payload))%fs.

(** [build_survey] up to the assignment of ['product_args']. *)
Definition build_survey_payload (w : world) (args : dict) (edr : string)
  : M dict :=
  (let survey_payload := merge_options args in
   validate_options w args edr ;;;
   log <- (e <- attr args "edr" ;; d <- attr args "log_dir" ;; logger w e d) ;;
   assemble_payload w log args survey_payload)%fs.

(** [build_survey]: the payload without the entries that are [None]. *)
Definition build_survey (w : world) (args : dict) (edr : string) : M dict :=
  (survey_payload <- build_survey_payload w args edr ;;
   ret (drop_none survey_payload))%fs.

(** ** Effects of a computation *)

(** An effect that only reads. *)
Definition is_read (e : event) : Prop := is_write e = false.

(** The records that the first statement of [logger] appends: one
    ["Product: <edr>"] for every file the root logger writes to. *)
Definition product_records (w : world) (edr : value) (t : trace) : trace :=
  map (fun file => EvLogRecord file ("Product: " ++ str_of w edr))
      (root_log_files w t).

(** An effect that only reads, or a record appended to the log file. *)
Definition is_read_or_log (log : string) (e : event) : Prop :=
  is_write e = false \/ exists msg, e = EvLogRecord log msg.

(** [m] adds nothing to the trace but effects that satisfy [P], however it
    ends. *)
Definition emits {A} (P : event -> Prop) (m : M A) : Prop :=
  forall t o t', m t = (o, t') -> exists evs, t' = (t ++ evs)%list /\ Forall P evs.

(** ** Sample inputs *)

(** The log file that the root logger writes to when only [logger] has
    configured it: the one opened last, or none after a failed [os.makedirs]
    and before the first call. *)
Fixpoint last_log_file_from (files : list string) (t : trace) : list string :=
  match t with
  | [] => files
  | EvOpenLog file :: t' => last_log_file_from [file] t'
  | EvMakedirs _ :: t' => last_log_file_from [] t'
  | _ :: t' => last_log_file_from files t'
  end.

Definition last_log_file (t : trace) : list string := last_log_file_from [] t.

(** A small world: one IOC file, one rule directory, no open descriptor of
    interest, and a root logger that only [logger] configures. *)
Definition sample_world : world := {|
  isfile := fun _ p => String.eqb p "/data/iocs.txt";
  isdir := fun _ p => String.eqb p "/rules";
  path_exists := fun _ p => String.eqb p "/data/iocs.txt" || String.eqb p "/rules";
  walk := fun _ p =>
    if String.eqb p "/rules"
    then [("/rules", ["sub"], ["a.yml"; "b.txt"]); ("/rules/sub", [], ["c.yml"])]
    else [];
  readlines := fun _ p =>
    if String.eqb p "/data/iocs.txt"
    then Some [" 1.2.3.4 "; "evil.example"] else None;
  makedirs_ok := fun _ _ => true;
  open_log_ok := fun _ _ => true;
  module_dir := "/opt/surveyor";
  utcnow := "20240101000000";
  str_of := fun v => match v with VStr s => s | _ => "None" end;
  fd_isfile := fun _ _ => false;
  fd_isdir := fun _ _ => false;
  fd_exists := fun _ _ => false;
  fd_open_ok := fun _ _ => false;
  fd_readlines := fun _ _ => None;
  root_log_files := last_log_file
|}.

(** The options of a run that supplies nothing but the backend, an empty
    host name filter and the log directory. *)
Definition sample_args (edr : string) : dict :=
  [("edr", VStr edr); ("creds", VNone); ("profile", VNone);
   ("prefix", VNone); ("days", VNone); ("minutes", VNone); ("limit", VNone);
   ("hostname", VStr EmptyString); ("username", VNone); ("query", VNone);
   ("output", VNone); ("no_file", VBool false); ("no_progress", VBool false);
   ("log_dir", VStr "logs"); ("iocfile", VNone); ("ioctype", VNone);
   ("deffile", VNone); ("defdir", VNone); ("sigmarule", VNone);
   ("sigmadir", VNone); ("device_group", VNone); ("device_policy", VNone);
   ("sensor_group", VNone); ("dv", VBool false)].

(** What [build_survey] returns for [sample_args "cbc"]. *)
Definition sample_spec : dict :=
  [("hostname", VStr EmptyString); ("no_file", VBool false);
   ("no_progress", VBool false); ("log_dir", VStr "logs");
   ("output_format", VStr "csv"); ("product_args", VDict [])].

Definition sample_trace : trace :=
  [EvMakedirs "logs"; EvOpenLog "logs/20240101000000.cbc.log"].

(** The same options with an IOC file that does not exist. *)
Definition missing_ioc_args : dict :=
  dict_set "ioctype" (VStr "ipaddr")
    (dict_set "iocfile" (VStr "/missing.txt") (sample_args "cbc")).

(** The options of an S1 run that also carries a CBr sensor group. *)
Definition s1_sensor_group_args : dict :=
  dict_set "sensor_group" (VList [VStr "g"]) (sample_args "s1").

(** The five backends of the table. *)
Definition supported_edrs : list string := ["cbc"; "cbr"; "cortex"; "dfe"; "s1"].

(** ** ANSI colour codes and the console echo *)

(** The escape character, [\x1B]. *)
Definition ESC : ascii := ascii_of_nat 27.

(** [lo <= c <= hi] on character codes. *)
Definition in_range (lo hi : nat) (c : ascii) : bool :=
  let n := nat_of_ascii c in ((lo <=? n) && (n <=? hi))%nat.

(** The classes of [ansi_escape_regex]: [[@-Z\\-_]], [[0-?]], [[ -/]] and
    [[@-~]]. *)
Definition is_single_final (c : ascii) : bool :=
  in_range 64 90 c || in_range 92 95 c.

Definition is_parameter (c : ascii) : bool := in_range 48 63 c.

Definition is_intermediate (c : ascii) : bool := in_range 32 47 c.

Definition is_final (c : ascii) : bool := in_range 64 126 c.

(** The number of leading characters of [s] in a class (a greedy star). *)
Fixpoint count_while (f : ascii -> bool) (s : string) : nat :=
  match s with
  | EmptyString => O
  | String c s' => if f c then S (count_while f s') else O
  end.

(** [s[n:]]. *)
Fixpoint drop_chars (n : nat) (s : string) : string :=
  match n, s with
  | O, _ => s
  | S n', String _ s' => drop_chars n' s'
  | S _, EmptyString => EmptyString
  end.

(** The length of the match of [ansi_escape_regex] at the head of [s], if
    there is one.  The three classes of the second alternative are disjoint
    and none holds the escape character, so the greedy choice is the only
    candidate. *)
Definition ansi_match_length (s : string) : option nat :=
  match s with
  | String e (String c r) =>
      if Ascii.eqb e ESC then
        if is_single_final c then Some 2
        else if Ascii.eqb c "["%char then
          let p := count_while is_parameter r in
          let i := count_while is_intermediate (drop_chars p r) in
          match drop_chars i (drop_chars p r) with
          | String f _ => if is_final f then Some (3 + p + i) else None
          | EmptyString => None
          end
        else None
      else None
  | _ => None
  end.

(** [ansi_escape_regex.sub('', s)], left to right: [skip] characters of a
    match found earlier are still to be dropped. *)
Fixpoint ansi_sub (skip : nat) (s : string) : string :=
  match s with
  | EmptyString => EmptyString
  | String c s' =>
      match skip with
      | S k => ansi_sub k s'
      | O =>
          match ansi_match_length s with
          | Some n => ansi_sub (n - 1) s'
          | None => String c (ansi_sub 0 s')
          end
      end
  end.

Definition _strip_ansi_codes (message : string) : string :=
  ansi_sub 0 message.

(** What [log_echo] sends out: a line on the console, through [tqdm.write]
    or [print], and a record handed to the logger. *)
Inductive echo : Type :=
| TqdmWrite (text : string)
| Print (text : string)
| LogRecord (level : Z) (text : string).

(** [logging.DEBUG], [logging.WARNING] and [logging.ERROR]. *)
Definition DEBUG : Z := 10.
Definition WARNING : Z := 30.
Definition ERROR : Z := 40.

(** [f'\u001b[<code>m{message}\u001b[0m']. *)
Definition colour (code message : string) : string :=
  String ESC ("[" ++ code ++ "m") ++ message ++ String ESC "[0m".

Definition log_echo (message : string) (level : Z) (use_tqdm : bool)
  : list echo :=
  let color_message := message in
  let color_message :=
    if Z.eqb level WARNING then colour "33" color_message
    else if Z.leb ERROR level then colour "31" color_message
    else color_message in
  [if use_tqdm then TqdmWrite color_message else Print message;
   LogRecord level (_strip_ansi_codes message)].

(** ** Well-formed option sets *)

(** The keys of a dictionary are distinct. *)
Fixpoint distinct (l : list string) : bool :=
  match l with
  | [] => true
  | x :: l' => negb (mem x l') && distinct l'
  end.

(** The option [name] is there and true. *)
Definition supplied (args : dict) (name : string) : bool :=
  match dict_get name args with
  | Some v => truthy v
  | None => false
  end.

(** An option as the payload takes it: the option when it is there and not
    None, the default of [survey_payload_init] otherwise. *)
Definition option_or_default (args : dict) (k : string) : option value :=
  match dict_get k args with
  | Some v => if is_none v then dict_get k survey_payload_init else Some v
  | None => dict_get k survey_payload_init
  end.

(** The effect of the final comprehension on one entry. *)
Definition without_none (o : option value) : option value :=
  match o with
  | Some v => if is_none v then None else Some v
  | None => None
  end.

(** The keys of the payload that only the options decide. *)
Definition generic_keys : list string :=
  ["prefix"; "days"; "minutes"; "limit"; "hostname"; "username"; "query";
   "output"; "no_file"; "no_progress"; "log_dir"; "log"; "definitions";
   "products_args"; "output_format"].

(** The mapping binds [k] to a true value: the name is one of those the
    credential check collects. *)
Definition holds (d : dict) (k : string) : Prop :=
  exists v, In (k, v) d /\ truthy v = true.

(** A condition without effects: whenever it returns, it returns [b] and
    the trace is as before. *)
Definition yields (c : M bool) (b : bool) : Prop :=
  forall t x t', c t = (Return x, t') -> t' = t /\ x = b.



(** A string without the escape character. *)
Fixpoint no_escape (s : string) : bool :=
  match s with
  | EmptyString => true
  | String c s' => negb (Ascii.eqb c ESC) && no_escape s'
  end.

(** A run that did not return a specification. *)
Definition failed {A} (o : outcome A) : Prop :=
  match o with Return _ => False | _ => True end.

(** ** The backend table and the credential check *)

Lemma EDR_DEETS_supported (edr : string) :
  EDR_DEETS edr <> None <-> In edr supported_edrs.
Proof.
  unfold EDR_DEETS, supported_edrs. simpl.
  destruct (String.eqb_spec edr "cbc"); [split; [auto | discriminate] |].
  destruct (String.eqb_spec edr "cbr"); [split; [auto | discriminate] |].
  destruct (String.eqb_spec edr "cortex"); [split; [auto | discriminate] |].
  destruct (String.eqb_spec edr "dfe"); [split; [auto 6 | discriminate] |].
  destruct (String.eqb_spec edr "s1"); [split; [auto 6 | discriminate] |].
  split; [congruence |].
  intros [H | [H | [H | [H | [H | []]]]]]; congruence.
Qed.

Lemma EDR_DEETS_unknown (edr : string) :
  EDR_DEETS edr = None ->
  String.eqb edr "cbc" = false /\ String.eqb edr "cbr" = false
  /\ String.eqb edr "cortex" = false /\ String.eqb edr "dfe" = false
  /\ String.eqb edr "s1" = false.
Proof.
  unfold EDR_DEETS.
  destruct (String.eqb edr "cbc"); [discriminate |].
  destruct (String.eqb edr "cbr"); [discriminate |].
  destruct (String.eqb edr "cortex"); [discriminate |].
  destruct (String.eqb edr "dfe"); [discriminate |].
  destruct (String.eqb edr "s1"); [discriminate |].
  auto.
Qed.

Lemma mem_In (s : string) (l : list string) : mem s l = true <-> In s l.
Proof.
  unfold mem. rewrite existsb_exists. split.
  - intros [x [Hx E]]. apply String.eqb_eq in E. now subst.
  - intros H. exists s. split; [assumption | apply String.eqb_refl].
Qed.

(** A key bound to a true value is among the names the check collects. *)
Lemma cred_check_of_get (creds : dict) (k : string) (v : value) :
  dict_get k creds = Some v -> truthy v = true ->
  mem k (cred_check_of creds) = true.
Proof.
  intros G T. apply mem_In. unfold cred_check_of.
  induction creds as [| [k' v'] creds IH]; simpl in *; [discriminate |].
  destruct (String.eqb_spec k k') as [-> | N].
  - injection G as ->. rewrite T. simpl. now left.
  - destruct (truthy v'); simpl; auto.
Qed.

(** C2, as amended: for a backend id that is not in the table and a
    credential mapping that does not hold both a true [creds_file] and a true
    [profile], the credential check returns result False, required_fields
    None and the label "<edr> is not a supported EDR". *)
Theorem check_credentials_structure_unsupported (edr : string) (creds : dict) :
  EDR_DEETS edr = None ->
  mem "creds_file" (cred_check_of creds) && mem "profile" (cred_check_of creds)
    = false ->
  check_credentials_structure edr creds
  = Return [("result", VBool false);
            ("edr", VStr (edr ++ " is not a supported EDR"));
            ("required_fields", VNone)].
Proof.
  intros U B. unfold check_credentials_structure.
  destruct (EDR_DEETS_unknown edr U) as (E1 & E2 & E3 & E4 & E5).
  assert (Hm : mem edr ["cbc"; "cbr"] = false)
    by (unfold mem; simpl; now rewrite E1, E2).
  rewrite Hm, B, E1, E2, E3, E4, E5, U. reflexivity.
Qed.

Lemma check_credentials_structure_unsupported_witness :
  check_credentials_structure "carbonite" [("creds_file", VStr "/tmp/c")]
  = Return [("result", VBool false);
            ("edr", VStr "carbonite is not a supported EDR");
            ("required_fields", VNone)].
Proof.
  apply (check_credentials_structure_unsupported
           "carbonite" [("creds_file", VStr "/tmp/c")]); reflexivity.
Defined.

(** C2, as stated, fails: an id outside the table passes the check once the
    mapping holds a credentials file and a profile. *)
Lemma check_credentials_structure_unsupported_passes :
  EDR_DEETS "carbonite" = None
  /\ check_credentials_structure "carbonite"
       [("creds_file", VStr "/tmp/c"); ("profile", VStr "x")]
     = Return [("result", VBool true); ("edr", VStr "carbonite");
               ("required_fields",
                VStr "A profile and path to a credentials file argument have been supplied")].
Proof. split; reflexivity. Qed.

(** C3: whatever the backend id, a credential mapping with a true
    [creds_file] and a true [profile] passes the check. *)
Theorem check_credentials_structure_file_and_profile
    (edr : string) (creds : dict) (file profile : value) :
  dict_get "creds_file" creds = Some file -> truthy file = true ->
  dict_get "profile" creds = Some profile -> truthy profile = true ->
  exists r, check_credentials_structure edr creds = Return r
            /\ dict_get "result" r = Some (VBool true).
Proof.
  intros Gf Tf Gp Tp. unfold check_credentials_structure.
  rewrite (cred_check_of_get creds "creds_file" file Gf Tf).
  rewrite (cred_check_of_get creds "profile" profile Gp Tp).
  rewrite andb_true_r. simpl andb.
  destruct (mem edr ["cbc"; "cbr"]) eqn:Hm.
  - apply mem_In in Hm. destruct Hm as [<- | [<- | []]];
      eexists; (split; [reflexivity | reflexivity]).
  - eexists. split; reflexivity.
Qed.

Lemma check_credentials_structure_file_and_profile_witness :
  exists r,
    check_credentials_structure "dfe"
      [("creds_file", VStr "/tmp/c"); ("profile", VStr "x")] = Return r
    /\ dict_get "result" r = Some (VBool true).
Proof.
  apply (check_credentials_structure_file_and_profile
           "dfe" [("creds_file", VStr "/tmp/c"); ("profile", VStr "x")]
           (VStr "/tmp/c") (VStr "x")); reflexivity.
Defined.

(** ** The product-argument check *)

Lemma nonempty_spec {A} (l : list A) : nonempty l = true <-> l <> [].
Proof. destruct l; simpl; split; congruence. Qed.

Lemma set_diff_In (a b : list string) (x : string) :
  In x (set_diff a b) <-> In x a /\ ~ In x b.
Proof.
  unfold set_diff. rewrite filter_In, negb_true_iff, <- not_true_iff_false.
  now rewrite mem_In.
Qed.

Lemma set_inter_In (a b : list string) (x : string) :
  In x (set_inter a b) <-> In x a /\ In x b.
Proof. unfold set_inter. now rewrite filter_In, mem_In. Qed.

Lemma set_of_In (l : list string) (x : string) : In x (set_of l) <-> In x l.
Proof.
  induction l as [| y l IH]; simpl; [tauto |].
  destruct (mem y l) eqn:E; simpl; rewrite IH; [| tauto].
  apply mem_In in E. split; [tauto |]. intros [<- | H]; assumption.
Qed.

(** For a backend that declares product arguments and a mapping that is not
    empty, the check reports the declared names that were supplied and those
    that were not. *)
Lemma check_product_args_structure_declared
    (edr : string) (d : edr_details) (l : list string) (product_args : dict) :
  EDR_DEETS edr = Some d -> product_arguments d = Some l ->
  product_args <> [] ->
  let supplied := set_of (dict_keys product_args) in
  let incompatible := set_diff (set_of l) supplied in
  let compatible := set_inter (set_of l) supplied in
  exists r,
    check_product_args_structure edr product_args = Return r
    /\ dict_get "result" r = Some (VBool (nonempty compatible))
    /\ dict_get "incompatible_arguments" r
       = Some (if nonempty incompatible then VSet incompatible else VNone).
Proof.
  intros E P N. unfold check_product_args_structure, EDR_DEETS_item,
    set_of_product_arguments. rewrite E. simpl obind.
  destruct product_args as [| kv rest]; [congruence |].
  cbn [truthy negb]. rewrite P. cbn [obind].
  cbv zeta.
  destruct (nonempty (set_inter _ _)); destruct (nonempty (set_diff _ _));
    eexists; (split; [reflexivity | split; reflexivity]).
Qed.

(** C4, as amended: for a backend id of the table, the check returns a
    result without raising when the mapping is empty or the backend declares
    product arguments; for an id that is not in the table the lookup
    [EDR_DEETS[edr]] raises [KeyError], whatever the mapping. *)
Theorem check_product_args_structure_returns
    (edr : string) (product_args : dict) :
  (forall d, EDR_DEETS edr = Some d ->
             product_args = [] \/ product_arguments d <> None ->
             exists r, check_product_args_structure edr product_args = Return r)
  /\ (EDR_DEETS edr = None ->
      check_product_args_structure edr product_args = Raise (KeyError edr)).
Proof.
  split.
  - intros d E [-> | P].
    + unfold check_product_args_structure, EDR_DEETS_item. rewrite E.
      eexists. reflexivity.
    + destruct product_args as [| kv rest].
      * unfold check_product_args_structure, EDR_DEETS_item. rewrite E.
        eexists. reflexivity.
      * destruct (product_arguments d) as [l |] eqn:Pl; [| congruence].
        destruct (check_product_args_structure_declared
                    edr d l (kv :: rest) E Pl) as (r & R & _);
          [discriminate |].
        exists r. exact R.
  - intros E. unfold check_product_args_structure, EDR_DEETS_item.
    rewrite E. reflexivity.
Qed.

Lemma check_product_args_structure_returns_witness :
  (exists r,
     check_product_args_structure "cbc" [("device_group", VList [VStr "g"])]
     = Return r)
  /\ check_product_args_structure "carbonite"
       [("device_group", VList [VStr "g"])]
     = Raise (KeyError "carbonite").
Proof.
  split.
  - apply (proj1 (check_product_args_structure_returns
                    "cbc" [("device_group", VList [VStr "g"])]) cbc_details).
    + reflexivity.
    + right. discriminate.
  - apply (proj2 (check_product_args_structure_returns
                    "carbonite" [("device_group", VList [VStr "g"])])).
    reflexivity.
Defined.

(** C4, as stated, fails: for an id outside the table the lookup
    [EDR_DEETS[edr]] raises [KeyError]. *)
Lemma check_product_args_structure_unknown_raises :
  EDR_DEETS "carbonite" = None
  /\ check_product_args_structure "carbonite" [] = Raise (KeyError "carbonite")
  /\ ~ (forall edr product_args,
          exists r, check_product_args_structure edr product_args = Return r).
Proof.
  split; [reflexivity |]. split; [reflexivity |].
  intros H. destruct (H "carbonite" []) as [r R]. discriminate R.
Qed.

(** C5 at a backend of the table that declares no product arguments: with a
    mapping that is not empty the check raises [TypeError] at
    [set(edr_details['product_arguments'])] and reports nothing. *)
Theorem check_product_args_structure_cortex_raises :
  EDR_DEETS "cortex" = Some cortex_details
  /\ product_arguments cortex_details = None
  /\ check_product_args_structure "cortex" [("sensor_group", VList [VStr "g"])]
     = Raise TypeError
  /\ check_product_args_structure "dfe" [("deep_visibility", VBool true)]
     = Raise TypeError.
Proof. repeat split; reflexivity. Qed.

(** ** The builders *)

(** C6 at an S1 run that carries a sensor group: the builder returns the
    CBr argument [sensor_group], which is not among the product arguments of
    S1, and leaves the S1 toggle out even when it is set. *)
Theorem product_arg_builder_s1_sensor_group :
  product_arg_builder s1_sensor_group_args
  = Return [("sensor_group", VList [VStr "g"])]
  /\ product_arg_builder (dict_set "dv" (VBool true) s1_sensor_group_args)
     = Return [("sensor_group", VList [VStr "g"])]
  /\ getattr s1_sensor_group_args "edr" = Return (VStr "s1")
  /\ product_arguments s1_details = Some ["deep_visibility"]
  /\ mem "sensor_group" ["deep_visibility"] = false.
Proof. repeat split; reflexivity. Qed.

(** C10: for a backend outside the five supported ones the credential
    builder neither exits nor builds a mapping; it returns None, whatever
    the override fields hold. *)
Theorem credential_builder_unsupported (args : dict) (edr creds : value) :
  getattr args "edr" = Return edr ->
  (forall s, In s supported_edrs -> edr <> VStr s) ->
  getattr args "creds" = Return creds ->
  (truthy creds = true -> exists profile, getattr args "profile" = Return profile) ->
  credential_builder args = Return VNone.
Proof.
  intros E U C P.
  assert (N : forall s, In s supported_edrs -> eq_str edr s = false).
  { intros s Hs. destruct edr; try reflexivity. simpl.
    apply String.eqb_neq. intros ->. now apply (U s). }
  unfold credential_builder. rewrite E. cbn [obind].
  rewrite !N by (unfold supported_edrs; simpl; tauto).
  rewrite C. cbn [obind].
  destruct (truthy creds) eqn:T.
  - destruct (P eq_refl) as [profile Pr]. rewrite Pr. cbn [obind].
    destruct (truthy profile); reflexivity.
  - reflexivity.
Qed.

Lemma credential_builder_unsupported_witness :
  credential_builder
    (dict_set "creds" (VStr "/tmp/c")
       (dict_set "profile" (VStr "x") (sample_args "carbonite")))
  = Return VNone.
Proof.
  apply (credential_builder_unsupported _ (VStr "carbonite") (VStr "/tmp/c")).
  - reflexivity.
  - intros s [<- | [<- | [<- | [<- | [<- | []]]]]]; discriminate.
  - reflexivity.
  - intros _. exists (VStr "x"). reflexivity.
Defined.

(** ** The effects of [build_survey] *)

Lemma bind_Return {A B} (m : M A) (f : A -> M B) (t t' : trace) (b : B) :
  bind m f t = (Return b, t') ->
  exists a t1, m t = (Return a, t1) /\ f a t1 = (Return b, t').
Proof.
  unfold bind. destruct (m t) as [[a | msg | e] t1]; intros H;
    [eauto | discriminate | discriminate].
Qed.

Lemma lift_Return {A} (o : outcome A) (t t' : trace) (a : A) :
  lift o t = (Return a, t') -> o = Return a /\ t' = t.
Proof. unfold lift. intros H. injection H as -> ->. auto. Qed.

Lemma ret_Return {A} (a b : A) (t t' : trace) :
  ret a t = (Return b, t') -> a = b /\ t' = t.
Proof. unfold ret. intros H. injection H as -> ->. auto. Qed.

Section Emits.
Variable P : event -> Prop.

Lemma emits_ret {A} (a : A) : emits P (ret a).
Proof.
  intros t o t' H. injection H as <- <-. exists []. now rewrite app_nil_r.
Qed.

Lemma emits_lift {A} (o : outcome A) : emits P (lift o).
Proof.
  intros t o' t' H. injection H as <- <-. exists []. now rewrite app_nil_r.
Qed.

Lemma emits_bind {A B} (m : M A) (f : A -> M B) :
  emits P m -> (forall a, emits P (f a)) -> emits P (bind m f).
Proof.
  intros Hm Hf t o t' H. unfold bind in H.
  destruct (m t) as [o1 t1] eqn:E. destruct (Hm _ _ _ E) as (evs1 & -> & F1).
  destruct o1 as [a | msg | e].
  - destruct (Hf a _ _ _ H) as (evs2 & -> & F2).
    exists (evs1 ++ evs2)%list. rewrite app_assoc. split; [reflexivity |].
    apply Forall_app; auto.
  - injection H as <- <-. eauto.
  - injection H as <- <-. eauto.
Qed.

Lemma emits_one {A} (m : M A) (e : event) :
  P e -> (forall t, snd (m t) = record t e) -> emits P m.
Proof.
  intros Pe Hm t o t' H. exists [e]. split; [| auto].
  specialize (Hm t). rewrite H in Hm. exact Hm.
Qed.

Lemma emits_query (w : world) ask ev (p : string) :
  P (ev p) -> emits P (query w ask ev p).
Proof. intros Pe. apply (emits_one _ (ev p)); auto. Qed.
End Emits.

Lemma emits_weaken {A} (P Q : event -> Prop) (m : M A) :
  (forall e, P e -> Q e) -> emits P m -> emits Q m.
Proof.
  intros PQ Hm t o t' H. destruct (Hm _ _ _ H) as (evs & -> & F).
  exists evs. split; [reflexivity |]. eapply Forall_impl; eauto.
Qed.

Lemma emits_stat_query (P : event -> Prop) (w : world) ask ask_fd ev
    (v : value) :
  (forall p, P (ev p)) -> (forall fd, P (EvStatFd fd)) ->
  emits P (stat_query w ask ask_fd ev v).
Proof.
  intros Hp Hfd. unfold stat_query.
  apply emits_bind; [apply emits_lift |]. intros [p | fd].
  - now apply emits_query.
  - apply (emits_one _ _ (EvStatFd fd)); [apply Hfd | reflexivity].
Qed.

Ltac emits_step :=
  match goal with
  | |- emits _ (ret _) => apply emits_ret
  | |- emits _ (lift _) => apply emits_lift
  | |- emits _ (sys_exit _) => apply emits_lift
  | |- emits _ (attr _ _) => apply emits_lift
  | |- emits _ (bind _ _) => apply emits_bind; [| intros]
  | |- emits _ (if ?b then _ else _) => destruct b
  | |- emits _ (let (_, _) := ?p in _) => destruct p
  | |- emits _ (query _ _ _ _) =>
      apply emits_query; first [reflexivity | left; reflexivity]
  | |- emits _ (stat_query _ _ _ _ _) =>
      apply emits_stat_query; intros; first [reflexivity | left; reflexivity]
  end.

Ltac emits_auto :=
  unfold exit_if, and_then, or_else, not_, attr_true,
    os_path_isfile, os_path_isdir, os_path_exists;
  repeat emits_step.

Lemma emits_os_walk (P : event -> Prop) (w : world) (v : value) :
  (forall p, P (EvWalk p)) -> emits P (os_walk w v).
Proof.
  intros HP. unfold os_walk. emits_auto.
  apply (emits_one _ _ (EvWalk a)); auto.
Qed.

Lemma emits_open_file (P : event -> Prop) (w : world) (v : value) :
  (forall p, P (EvRead p)) -> (forall fd, P (EvOpenFd fd)) ->
  emits P (open_file w v).
Proof.
  intros Hp Hfd. unfold open_file.
  apply emits_bind; [apply emits_lift |]. intros [p | fd].
  - apply (emits_one _ _ (EvRead p)); [apply Hp |].
    intros t. destruct (readlines w t p); reflexivity.
  - destruct (fd <? 0)%Z; [apply emits_lift |].
    apply (emits_one _ _ (EvOpenFd fd)); [apply Hfd |].
    intros t. destruct (fd_open_ok w t fd); reflexivity.
Qed.

Lemma emits_file_readlines (P : event -> Prop) (w : world) (f : file_handle) :
  (forall fd, P (EvReadFd fd)) -> emits P (file_readlines w f).
Proof.
  intros Hfd. destruct f as [p data | fd]; [apply emits_ret |].
  apply (emits_one _ _ (EvReadFd fd)); [apply Hfd |].
  intros t. cbn. destruct (fd_readlines w t fd); reflexivity.
Qed.

Lemma emits_log_debug (log msg : string) :
  emits (is_read_or_log log) (log_debug log msg).
Proof.
  apply (emits_one _ _ (EvLogRecord log msg)); [right; eauto | reflexivity].
Qed.

(** The option checks only read. *)
Lemma validate_options_reads (w : world) (args : dict) (edr : string) :
  emits is_read (validate_options w args edr).
Proof. unfold validate_options. emits_auto. Qed.

Lemma resolve_deffile_effects (w : world) (log : string) (args : dict) :
  emits (is_read_or_log log) (resolve_deffile w log args).
Proof.
  unfold resolve_deffile. emits_auto. apply emits_log_debug.
Qed.

Lemma resolve_defdir_reads (w : world) (args : dict) (files : list value) :
  emits is_read (resolve_defdir w args files).
Proof.
  unfold resolve_defdir. emits_auto. apply emits_os_walk. reflexivity.
Qed.

Lemma resolve_sigma_rules_reads (w : world) (args : dict) :
  emits is_read (resolve_sigma_rules w args).
Proof.
  unfold resolve_sigma_rules. emits_auto. apply emits_os_walk. reflexivity.
Qed.

Lemma load_iocs_reads (w : world) (args payload : dict) :
  emits is_read (load_iocs w args payload).
Proof.
  unfold load_iocs. emits_auto.
  - apply emits_open_file; reflexivity.
  - apply emits_file_readlines; reflexivity.
Qed.

Lemma is_read_is_read_or_log (log : string) (e : event) :
  is_read e -> is_read_or_log log e.
Proof. intros H. left. exact H. Qed.

(** After the logger is set up, the builder reads and writes log records. *)
Lemma assemble_payload_effects (w : world) (log : string) (args payload : dict) :
  emits (is_read_or_log log) (assemble_payload w log args payload).
Proof.
  unfold assemble_payload.
  apply emits_bind; [apply resolve_deffile_effects | intros [args' files]].
  apply emits_bind;
    [eapply emits_weaken; [apply is_read_is_read_or_log | apply resolve_defdir_reads] |
     intros files'].
  apply emits_bind;
    [eapply emits_weaken; [apply is_read_is_read_or_log | apply resolve_sigma_rules_reads] |
     intros rules].
  apply emits_bind;
    [eapply emits_weaken; [apply is_read_is_read_or_log | apply load_iocs_reads] |
     intros payload'].
  emits_auto.
Qed.

(** A successful [logger] logged through the root logger as it found it,
    made the directory and opened the log file in it. *)
Lemma logger_Return (w : world) (edr logs_dir : value) (t t' : trace)
    (log : string) :
  logger w edr logs_dir t = (Return log, t') ->
  exists dir,
    logs_dir = VStr dir
    /\ log = join dir (utcnow w ++ "." ++ str_of w edr ++ ".log")
    /\ t' = (t ++ product_records w edr t
             ++ [EvMakedirs dir; EvOpenLog log])%list.
Proof.
  unfold logger, logging_debug, os_makedirs, FileHandler. intros H.
  destruct logs_dir; try discriminate H. exists s.
  unfold bind, lift, as_path, ret, record in H.
  fold (product_records w edr t) in H.
  destruct (makedirs_ok w _ s); [| discriminate H].
  destruct (open_log_ok w _ _); [| discriminate H].
  injection H as <- <-. rewrite <- !app_assoc. auto.
Qed.

Lemma build_survey_Return (w : world) (args : dict) (edr : string)
    (t t' : trace) (spec : dict) :
  build_survey w args edr t = (Return spec, t') ->
  exists survey_payload,
    build_survey_payload w args edr t = (Return survey_payload, t')
    /\ spec = drop_none survey_payload.
Proof.
  unfold build_survey. intros H.
  apply bind_Return in H. destruct H as (payload & t1 & Hp & Hr).
  apply ret_Return in Hr. destruct Hr as [<- ->]. eauto.
Qed.

Lemma drop_none_In (d : dict) (k : string) (v : value) :
  In (k, v) (drop_none d) <-> In (k, v) d /\ v <> VNone.
Proof.
  unfold drop_none. rewrite filter_In. simpl.
  destruct v; simpl; intuition congruence.
Qed.

Lemma drop_none_idempotent (d : dict) : drop_none (drop_none d) = drop_none d.
Proof.
  unfold drop_none. induction d as [| [k v] d IH]; simpl; [reflexivity |].
  destruct (is_none v) eqn:E; simpl; [exact IH |]. rewrite E. simpl.
  now rewrite IH.
Qed.

(** The sample run, evaluated. *)
Lemma sample_run :
  build_survey sample_world (sample_args "cbc") "cbc" []
  = (Return sample_spec, sample_trace).
Proof. reflexivity. Qed.

(** C1, as amended: in the specification that [build_survey] returns no
    field is None, and pruning it again changes nothing. *)
Theorem build_survey_omits_none (w : world) (args : dict) (edr : string)
    (spec : dict) (t : trace) :
  build_survey w args edr [] = (Return spec, t) ->
  (forall k v, In (k, v) spec -> v <> VNone) /\ drop_none spec = spec.
Proof.
  intros H. apply build_survey_Return in H.
  destruct H as (payload & _ & ->). split.
  - intros k v Hin. apply drop_none_In in Hin. tauto.
  - apply drop_none_idempotent.
Qed.

Lemma build_survey_omits_none_witness :
  (forall k v, In (k, v) sample_spec -> v <> VNone)
  /\ drop_none sample_spec = sample_spec.
Proof.
  apply (build_survey_omits_none sample_world (sample_args "cbc") "cbc"
           sample_spec sample_trace).
  reflexivity.
Defined.

(** C1, as stated, fails: the sample run returns a specification that
    carries an empty string and an empty mapping. *)
Lemma build_survey_carries_empty_fields :
  build_survey sample_world (sample_args "cbc") "cbc" []
  = (Return sample_spec, sample_trace)
  /\ In ("hostname", VStr EmptyString) sample_spec
  /\ In ("product_args", VDict []) sample_spec.
Proof.
  split; [exact sample_run |]. unfold sample_spec. simpl. tauto.
Qed.

(** C9: every value of the returned specification is not None, and every
    entry of the assembled payload whose value is not None - an empty string,
    an empty list, an empty mapping and False among them - is in the returned
    specification. *)
Theorem build_survey_keeps_empty_values (w : world) (args : dict)
    (edr : string) (spec : dict) (t : trace) :
  build_survey w args edr [] = (Return spec, t) ->
  (forall k v, In (k, v) spec -> v <> VNone)
  /\ exists survey_payload,
       build_survey_payload w args edr [] = (Return survey_payload, t)
       /\ (forall k v, In (k, v) survey_payload -> v <> VNone -> In (k, v) spec)
       /\ (forall k v, In (k, v) survey_payload ->
             In v [VStr EmptyString; VList []; VDict []; VBool false] ->
             In (k, v) spec).
Proof.
  intros H. apply build_survey_Return in H.
  destruct H as (payload & Hp & ->). split.
  - intros k v Hin. apply drop_none_In in Hin. tauto.
  - exists payload. split; [exact Hp |]. split.
    + intros k v Hin Hv. apply drop_none_In. auto.
    + intros k v Hin Hv. apply drop_none_In. split; [exact Hin |].
      simpl in Hv. intuition (subst; discriminate).
Qed.

Lemma build_survey_keeps_empty_values_witness :
  (forall k v, In (k, v) sample_spec -> v <> VNone)
  /\ exists survey_payload,
       build_survey_payload sample_world (sample_args "cbc") "cbc" []
       = (Return survey_payload, sample_trace)
       /\ (forall k v, In (k, v) survey_payload -> v <> VNone ->
             In (k, v) sample_spec)
       /\ (forall k v, In (k, v) survey_payload ->
             In v [VStr EmptyString; VList []; VDict []; VBool false] ->
             In (k, v) sample_spec).
Proof.
  apply (build_survey_keeps_empty_values sample_world (sample_args "cbc")
           "cbc" sample_spec sample_trace).
  reflexivity.
Defined.

(** C7 at an IOC file that does not exist: the check reads the attribute
    [ioc_file], which the options do not have, and [build_survey] ends in an
    [AttributeError] instead of the exit message. *)
Theorem build_survey_missing_iocfile :
  getattr missing_ioc_args "iocfile" = Return (VStr "/missing.txt")
  /\ isfile sample_world [] "/missing.txt" = false
  /\ build_survey sample_world missing_ioc_args "cbc" []
     = (Raise (AttributeError "ioc_file"), []).
Proof. repeat split; reflexivity. Qed.

(** With an attribute [ioc_file] naming some other, existing file the check
    passes and the missing IOC file is only met when it is opened. *)
Lemma build_survey_missing_iocfile_opened :
  build_survey sample_world
    (dict_set "ioc_file" (VStr "/data/iocs.txt") missing_ioc_args) "cbc" []
  = (Raise OSError,
     [EvIsFile "/data/iocs.txt"; EvMakedirs "logs";
      EvOpenLog "logs/20240101000000.cbc.log"; EvRead "/missing.txt"]).
Proof. reflexivity. Qed.

(** C8, as stated, fails: the sample run creates the log directory and
    opens a log file in it. *)
Lemma build_survey_writes :
  build_survey sample_world (sample_args "cbc") "cbc" []
  = (Return sample_spec, sample_trace)
  /\ In (EvMakedirs "logs") sample_trace
  /\ In (EvOpenLog "logs/20240101000000.cbc.log") sample_trace
  /\ ~ (forall w args edr spec t,
          build_survey w args edr [] = (Return spec, t) -> Forall is_read t).
Proof.
  split; [exact sample_run |]. split; [simpl; tauto |]. split; [simpl; tauto |].
  intros H. specialize (H _ _ _ _ _ sample_run).
  inversion H as [| e l R _]. discriminate R.
Qed.

(** C8, as amended: a run of [build_survey] that returns a specification
    makes the log directory [args.log_dir] and opens the log file
    [<log_dir>/<time>.<edr>.log] in it.  Before that it only reads, and then
    appends one record ["Product: <edr>"] to every log file that the root
    logger already writes to (none in a fresh process, the log file of the
    earlier run on a repeated call); after that it only reads or appends
    records to the log file it opened. *)
Theorem build_survey_effects (w : world) (args : dict) (edr : string)
    (spec : dict) (t0 t : trace) :
  build_survey w args edr t0 = (Return spec, t) ->
  exists (dir : string) (e : value) (before after : trace),
    getattr args "log_dir" = Return (VStr dir)
    /\ getattr args "edr" = Return e
    /\ t = (t0 ++ before
            ++ product_records w e (t0 ++ before)
            ++ [EvMakedirs dir;
                EvOpenLog (join dir (utcnow w ++ "." ++ str_of w e ++ ".log"))]
            ++ after)%list
    /\ Forall is_read before
    /\ Forall (is_read_or_log
                 (join dir (utcnow w ++ "." ++ str_of w e ++ ".log"))) after.
Proof.
  intros H. apply build_survey_Return in H.
  destruct H as (payload & H & _). unfold build_survey_payload in H.
  apply bind_Return in H. destruct H as ([] & t1 & Hv & H).
  apply bind_Return in H. destruct H as (log & t2 & Hl & Ha).
  apply bind_Return in Hl. destruct Hl as (e & t1' & He & Hl).
  apply lift_Return in He. destruct He as [He ->].
  apply bind_Return in Hl. destruct Hl as (d & t1' & Hd & Hl).
  apply lift_Return in Hd. destruct Hd as [Hd ->].
  apply logger_Return in Hl. destruct Hl as (dir & -> & -> & ->).
  destruct (validate_options_reads w args edr _ _ _ Hv) as (before & -> & Fb).
  destruct (assemble_payload_effects w _ args _ _ _ _ Ha) as (after & -> & Fa).
  exists dir, e, before, after.
  rewrite <- !app_assoc. auto.
Qed.

Lemma build_survey_effects_witness :
  exists (dir : string) (e : value) (before after : trace),
    getattr (sample_args "cbc") "log_dir" = Return (VStr dir)
    /\ getattr (sample_args "cbc") "edr" = Return e
    /\ (sample_trace
         ++ [EvLogRecord "logs/20240101000000.cbc.log" "Product: cbc";
             EvMakedirs "logs"; EvOpenLog "logs/20240101000000.cbc.log"])%list
       = (sample_trace ++ before
          ++ product_records sample_world e (sample_trace ++ before)
          ++ [EvMakedirs dir;
              EvOpenLog (join dir (utcnow sample_world ++ "."
                                   ++ str_of sample_world e ++ ".log"))]
          ++ after)%list
    /\ Forall is_read before
    /\ Forall (is_read_or_log
                 (join dir (utcnow sample_world ++ "."
                            ++ str_of sample_world e ++ ".log"))) after.
Proof.
  apply (build_survey_effects sample_world (sample_args "cbc") "cbc"
           sample_spec sample_trace).
  reflexivity.
Defined.

(** ** ANSI codes *)

(** The substitution on a few strings; the last one shows that a second
    pass can find a code the first pass left. *)
Lemma strip_ansi_codes_examples :
  _strip_ansi_codes (colour "33" "disk full") = "disk full"
  /\ _strip_ansi_codes (String ESC "[1;31mred" ++ String ESC "[0m") = "red"
  /\ _strip_ansi_codes (String ESC "Mup") = "up"
  /\ _strip_ansi_codes (String ESC "[12") = String ESC "[12"
  /\ _strip_ansi_codes (String ESC (String ESC "[0m[0m")) = String ESC "[0m".
Proof. repeat split; reflexivity. Qed.

Lemma append_empty (s : string) : s ++ EmptyString = s.
Proof. induction s as [| c s IH]; simpl; [reflexivity | now rewrite IH]. Qed.

Lemma ansi_match_length_other (c : ascii) (s : string) :
  Ascii.eqb c ESC = false -> ansi_match_length (String c s) = None.
Proof. intros H. destruct s; simpl; [reflexivity | now rewrite H]. Qed.

(** A prefix without the escape character is copied. *)
Lemma ansi_sub_no_escape_app (m rest : string) :
  no_escape m = true -> ansi_sub 0 (m ++ rest) = m ++ ansi_sub 0 rest.
Proof.
  induction m as [| c m IH]; intros H; [reflexivity |].
  simpl in H. apply andb_true_iff in H. destruct H as [Hc Hm].
  apply negb_true_iff in Hc.
  change (String c m ++ rest) with (String c (m ++ rest)).
  cbn [ansi_sub]. rewrite (ansi_match_length_other c _ Hc).
  now rewrite (IH Hm).
Qed.

Lemma ansi_sub_plain (message : string) :
  no_escape message = true -> ansi_sub 0 message = message.
Proof.
  intros H. rewrite <- (append_empty message) at 1.
  rewrite (ansi_sub_no_escape_app message EmptyString H).
  apply append_empty.
Qed.

(** X1: a message without the escape character is left as it is. *)
Theorem strip_ansi_codes_plain (message : string) :
  no_escape message = true -> _strip_ansi_codes message = message.
Proof. intros H. unfold _strip_ansi_codes. now apply ansi_sub_plain. Qed.

Lemma strip_ansi_codes_plain_witness :
  _strip_ansi_codes "surveying host-01 [ok]" = "surveying host-01 [ok]".
Proof. apply (strip_ansi_codes_plain "surveying host-01 [ok]"). reflexivity. Defined.

Lemma ansi_sub_length (skip : nat) (s : string) :
  String.length (ansi_sub skip s) <= String.length s.
Proof.
  revert skip. induction s as [| c s IH]; intros skip; [simpl; lia |].
  cbn [ansi_sub]. destruct skip as [| k].
  - destruct (ansi_match_length (String c s)) as [n |].
    + specialize (IH (n - 1)). simpl; lia.
    + specialize (IH 0). simpl; lia.
  - specialize (IH k). simpl; lia.
Qed.

(** X2: stripping never makes a message longer. *)
Theorem strip_ansi_codes_length (message : string) :
  String.length (_strip_ansi_codes message) <= String.length message.
Proof. apply ansi_sub_length. Qed.

(** The colour that [log_echo] wraps around a plain message is stripped
    again. *)
Lemma strip_ansi_codes_colour (message : string) :
  no_escape message = true ->
  _strip_ansi_codes (colour "33" message) = message
  /\ _strip_ansi_codes (colour "31" message) = message.
Proof.
  intros H. unfold _strip_ansi_codes, colour.
  split; cbn -[ansi_sub no_escape];
    cbn [ansi_sub ansi_match_length]; simpl;
    rewrite (ansi_sub_no_escape_app message _ H); simpl;
    apply append_empty.
Qed.

(** X3: for a message without the escape character, [log_echo] hands the
    message itself to the logger, and what it shows on the console is the
    message once the colour codes are stripped, at every level and through
    both console paths. *)
Theorem log_echo_plain (message : string) (level : Z) (use_tqdm : bool) :
  no_escape message = true ->
  exists console,
    log_echo message level use_tqdm
    = [if use_tqdm then TqdmWrite console else Print console;
       LogRecord level message]
    /\ _strip_ansi_codes console = message.
Proof.
  intros H. unfold log_echo. unfold _strip_ansi_codes at 1. rewrite (ansi_sub_plain message H).
  destruct (strip_ansi_codes_colour message H) as [Hw He].
  destruct use_tqdm.
  - destruct (Z.eqb level WARNING); [eexists; split; [reflexivity | exact Hw] |].
    destruct (Z.leb ERROR level); [eexists; split; [reflexivity | exact He] |].
    eexists; split; [reflexivity | exact (ansi_sub_plain message H)].
  - exists message. split; [reflexivity | exact (ansi_sub_plain message H)].
Qed.

Lemma log_echo_plain_witness :
  exists console,
    log_echo "query failed" ERROR true
    = [TqdmWrite console; LogRecord ERROR "query failed"]
    /\ _strip_ansi_codes console = "query failed".
Proof. apply (log_echo_plain "query failed" ERROR true). reflexivity. Defined.

(** ** More on the credential check *)

Lemma holds_mem (creds : dict) (k : string) :
  mem k (cred_check_of creds) = true <-> holds creds k.
Proof.
  rewrite mem_In. unfold cred_check_of, holds. rewrite in_map_iff. split.
  - intros [[k' v] [E H]]. simpl in E. subst k'.
    apply filter_In in H. destruct H as [Hin T]. eauto.
  - intros [v [Hin T]]. exists (k, v). split; [reflexivity |].
    apply filter_In. auto.
Qed.

Ltac cred_cases cc :=
  cbn -[mem];
  repeat match goal with
         | |- context [mem ?k cc] => destruct (mem k cc)
         end;
  cbn; eexists; eexists; reflexivity.

(** The check as one boolean: it always returns a mapping of three entries,
    and its result is the disjunction of the branches that set it. *)
Lemma check_credentials_structure_result (edr : string) (creds : dict) :
  let cc := cred_check_of creds in
  exists (label : string) (required : value),
    check_credentials_structure edr creds
    = Return [("result",
               VBool (mem "creds_file" cc
                        && (mem edr ["cbc"; "cbr"] || mem "profile" cc)
                      || String.eqb edr "cbc"
                         && all_in ["url"; "token"; "org_key"] cc
                      || String.eqb edr "cbr" && all_in ["url"; "token"] cc
                      || String.eqb edr "cortex"
                         && all_in ["api_key"; "url"; "api_key_id"; "auth_type"] cc
                      || String.eqb edr "dfe"
                         && (mem "token" cc
                             || all_in ["tenantId"; "appId"; "appSecret"] cc)
                      || String.eqb edr "s1" && all_in ["url"; "token"] cc
                         && any_in ["site_ids"; "account_ids"; "account_names"] cc));
              ("edr", VStr label); ("required_fields", required)].
Proof.
  intros cc. unfold check_credentials_structure. fold cc.
  destruct (String.eqb_spec edr "cbc") as [-> | N1]; [cred_cases cc |].
  destruct (String.eqb_spec edr "cbr") as [-> | N2]; [cred_cases cc |].
  destruct (String.eqb_spec edr "cortex") as [-> | N3]; [cred_cases cc |].
  destruct (String.eqb_spec edr "dfe") as [-> | N4]; [cred_cases cc |].
  destruct (String.eqb_spec edr "s1") as [-> | N5]; [cred_cases cc |].
  apply String.eqb_neq in N1, N2, N3, N4, N5.
  assert (Hm : mem edr ["cbc"; "cbr"] = false)
    by (unfold mem; simpl; now rewrite N1, N2).
  unfold EDR_DEETS. rewrite Hm, N1, N2, N3, N4, N5.
  destruct (mem "creds_file" cc); destruct (mem "profile" cc);
    cbn [andb orb]; eexists; eexists; reflexivity.
Qed.

(** X4: the credential check never raises and never exits: for every
    backend id, in the table or not, and every mapping it returns a mapping
    of the three entries result, edr and required_fields. *)
Theorem check_credentials_structure_never_raises (edr : string) (creds : dict) :
  exists (b : bool) (label : string) (required : value),
    check_credentials_structure edr creds
    = Return [("result", VBool b); ("edr", VStr label);
              ("required_fields", required)].
Proof.
  destruct (check_credentials_structure_result edr creds)
    as (label & required & R).
  eexists; exists label, required. exact R.
Qed.

(** X5: the check passes exactly when the mapping holds a credentials file
    (for cbc and cbr) or a credentials file and a profile (for any id), or
    the fields of the backend: url, token and org_key for cbc; url and token
    for cbr; api_key, url, api_key_id and auth_type for cortex; token, or
    tenantId, appId and appSecret, for dfe; url, token and one of site_ids,
    account_ids and account_names for s1. *)
Theorem check_credentials_structure_passes_iff (edr : string) (creds : dict) :
  exists (r : dict) (b : bool),
    check_credentials_structure edr creds = Return r
    /\ dict_get "result" r = Some (VBool b)
    /\ (b = true <->
        holds creds "creds_file"
          /\ (edr = "cbc" \/ edr = "cbr" \/ holds creds "profile")
        \/ edr = "cbc" /\ holds creds "url" /\ holds creds "token"
           /\ holds creds "org_key"
        \/ edr = "cbr" /\ holds creds "url" /\ holds creds "token"
        \/ edr = "cortex" /\ holds creds "api_key" /\ holds creds "url"
           /\ holds creds "api_key_id" /\ holds creds "auth_type"
        \/ edr = "dfe"
           /\ (holds creds "token"
               \/ holds creds "tenantId" /\ holds creds "appId"
                  /\ holds creds "appSecret")
        \/ edr = "s1" /\ holds creds "url" /\ holds creds "token"
           /\ (holds creds "site_ids" \/ holds creds "account_ids"
               \/ holds creds "account_names")).
Proof.
  destruct (check_credentials_structure_result edr creds)
    as (label & required & R).
  eexists; eexists. split; [exact R |]. split; [reflexivity |].
  unfold all_in, any_in. cbn [forallb existsb].
  rewrite <- !holds_mem.
  assert (Hm : mem edr ["cbc"; "cbr"] = true <-> edr = "cbc" \/ edr = "cbr").
  { rewrite mem_In. simpl. intuition congruence. }
  rewrite !orb_true_iff, !andb_true_iff, !orb_true_iff, !andb_true_iff,
    !String.eqb_eq, Hm.
  intuition congruence.
Qed.

(** X6: for a backend of the table the result names the backend by its id,
    and a failed check always carries the requirement text of the backend. *)
Theorem check_credentials_structure_remediation
    (edr : string) (d : edr_details) (creds : dict) :
  EDR_DEETS edr = Some d ->
  exists (b : bool) (required : value),
    check_credentials_structure edr creds
    = Return [("result", VBool b); ("edr", VStr edr);
              ("required_fields", required)]
    /\ (b = false -> required = VStr (required_credentials d)).
Proof.
  intros E.
  assert (S : In edr supported_edrs)
    by (apply EDR_DEETS_supported; congruence).
  unfold check_credentials_structure.
  set (cc := cred_check_of creds).
  destruct S as [<- | [<- | [<- | [<- | [<- | []]]]]];
    cbn in E; injection E as <-;
    cbn -[mem];
    repeat match goal with
           | |- context [mem ?k cc] => destruct (mem k cc)
           end;
    cbn; eexists; eexists; (split; [reflexivity | intros; congruence]).
Qed.

Lemma check_credentials_structure_remediation_witness :
  exists (b : bool) (required : value),
    check_credentials_structure "s1" [("url", VStr "https://s1.example")]
    = Return [("result", VBool b); ("edr", VStr "s1");
              ("required_fields", required)]
    /\ (b = false -> required = VStr (required_credentials s1_details)).
Proof.
  apply (check_credentials_structure_remediation "s1" s1_details
           [("url", VStr "https://s1.example")]).
  reflexivity.
Defined.

(** ** More on the credential builder *)

(** The computation that a sequence of binds runs first. *)
Ltac leftmost m :=
  match m with
  | obind ?m' _ => leftmost m'
  | (if negb ?b then _ else _) => constr:(b)
  | (if ?b then _ else _) => constr:(b)
  | _ => constr:(m)
  end.

(** Runs a builder in hypothesis [H], one attribute or one test at a time,
    and drops the runs that do not end as [H] says. *)
Ltac builder_inv H :=
  repeat (cbn [obind negb] in H;
          match type of H with
          | Return _ = _ => fail 1
          | ?lhs = _ =>
              let x := leftmost lhs in
              let E := fresh "E" in
              destruct x eqn:E; cbn [obind negb] in H; try discriminate H
          end).

(** X7: for cbc and cbr the builder never exits: it returns the mapping
    with the one entry profile, the option when it is true and "default"
    otherwise. *)
Theorem credential_builder_direct (args : dict) (e : string) (p : value) :
  getattr args "edr" = Return (VStr e) -> In e ["cbc"; "cbr"] ->
  getattr args "profile" = Return p ->
  credential_builder args
  = Return (VDict [("profile", if truthy p then p else VStr "default")]).
Proof.
  intros E S P. unfold credential_builder, set_if_supplied.
  rewrite E. destruct S as [<- | [<- | []]]; cbn; rewrite P; cbn;
    destruct (truthy p); reflexivity.
Qed.

Lemma credential_builder_direct_witness :
  credential_builder (sample_args "cbr")
  = Return (VDict [("profile", VStr "default")]).
Proof.
  apply (credential_builder_direct (sample_args "cbr") "cbr" VNone).
  - reflexivity.
  - simpl. tauto.
  - reflexivity.
Defined.

(** X8: for cortex, dfe and s1 the builder exits with its message as soon as
    the credentials file or the profile is missing or empty. *)
Theorem credential_builder_exits (args : dict) (e : string) (c p : value) :
  getattr args "edr" = Return (VStr e) -> In e ["cortex"; "dfe"; "s1"] ->
  getattr args "creds" = Return c -> getattr args "profile" = Return p ->
  truthy c && truthy p = false ->
  credential_builder args
  = Exit "Cortex, S1, and DFE need to be passed the location to a credentials file, and a profile".
Proof.
  intros E S C P F. unfold credential_builder.
  rewrite E, C. destruct S as [<- | [<- | [<- | []]]]; cbn;
    (destruct (truthy c); [rewrite P; cbn; simpl in F; rewrite F |]);
    reflexivity.
Qed.

Lemma credential_builder_exits_witness :
  credential_builder (dict_set "creds" (VStr "/tmp/c") (sample_args "dfe"))
  = Exit "Cortex, S1, and DFE need to be passed the location to a credentials file, and a profile".
Proof.
  apply (credential_builder_exits _ "dfe" (VStr "/tmp/c") VNone);
    try reflexivity.
  simpl. tauto.
Defined.

(** A mapping that the builder returns for cortex, dfe or s1 binds profile
    and creds_file to the two options, and both are true. *)
Lemma credential_builder_file_backend (args : dict) (e : string) (creds : dict) :
  getattr args "edr" = Return (VStr e) -> In e ["cortex"; "dfe"; "s1"] ->
  credential_builder args = Return (VDict creds) ->
  exists c p,
    getattr args "creds" = Return c /\ getattr args "profile" = Return p
    /\ truthy c = true /\ truthy p = true
    /\ dict_get "creds_file" creds = Some c
    /\ dict_get "profile" creds = Some p.
Proof.
  intros E S H. unfold credential_builder, set_if_supplied in H.
  rewrite E in H.
  destruct S as [<- | [<- | [<- | []]]]; cbn -[value_lower] in H;
    builder_inv H.
  all: injection H as <-; eexists; eexists;
    repeat split; try eassumption;
    repeat match goal with
           | |- context [if truthy ?v then _ else _] => destruct (truthy v)
           end;
    reflexivity.
Qed.

(** X9: a credential mapping that the builder returns for cortex, dfe or s1
    passes the credential check of that backend. *)
Theorem credential_builder_passes_check (args : dict) (e : string) (creds : dict) :
  getattr args "edr" = Return (VStr e) -> In e ["cortex"; "dfe"; "s1"] ->
  credential_builder args = Return (VDict creds) ->
  exists r, check_credentials_structure e creds = Return r
            /\ dict_get "result" r = Some (VBool true).
Proof.
  intros E S H.
  destruct (credential_builder_file_backend args e creds E S H)
    as (c & p & _ & _ & Tc & Tp & Gc & Gp).
  destruct (check_credentials_structure_result e creds)
    as (label & required & R).
  eexists. split; [exact R |]. cbn [dict_get String.eqb Ascii.eqb Bool.eqb].
  rewrite (cred_check_of_get creds "creds_file" c Gc Tc).
  rewrite (cred_check_of_get creds "profile" p Gp Tp).
  now rewrite orb_true_r.
Qed.

Lemma credential_builder_passes_check_witness :
  exists r,
    check_credentials_structure "dfe"
      [("profile", VStr "x"); ("creds_file", VStr "/tmp/c")] = Return r
    /\ dict_get "result" r = Some (VBool true).
Proof.
  apply (credential_builder_passes_check
           (dict_set "creds" (VStr "/tmp/c")
              (dict_set "profile" (VStr "x") (sample_args "dfe"))) "dfe").
  - reflexivity.
  - simpl. tauto.
  - reflexivity.
Defined.

(** X10: a credential mapping that the builder returns for cbc or cbr holds
    nothing but the profile, and the credential check of that backend fails
    on it with the requirement text of the backend. *)
Theorem credential_builder_direct_fails_check
    (args : dict) (e : string) (creds : dict) :
  getattr args "edr" = Return (VStr e) -> In e ["cbc"; "cbr"] ->
  credential_builder args = Return (VDict creds) ->
  exists d,
    EDR_DEETS e = Some d
    /\ dict_keys creds = ["profile"]
    /\ check_credentials_structure e creds
       = Return [("result", VBool false); ("edr", VStr e);
                 ("required_fields", VStr (required_credentials d))].
Proof.
  intros E S H. unfold credential_builder, set_if_supplied in H.
  rewrite E in H.
  destruct S as [<- | [<- | []]]; cbn in H; builder_inv H;
    injection H as <-; eexists; (split; [reflexivity |]);
    unfold check_credentials_structure, cred_check_of;
    destruct (truthy a) eqn:T; cbn; rewrite ?T; (split; reflexivity).
Qed.

Lemma credential_builder_direct_fails_check_witness :
  exists d,
    EDR_DEETS "cbc" = Some d
    /\ dict_keys [("profile", VStr "default")] = ["profile"]
    /\ check_credentials_structure "cbc" [("profile", VStr "default")]
       = Return [("result", VBool false); ("edr", VStr "cbc");
                 ("required_fields", VStr (required_credentials d))].
Proof.
  apply (credential_builder_direct_fails_check (sample_args "cbc") "cbc").
  - reflexivity.
  - simpl. tauto.
  - reflexivity.
Defined.

Lemma lower_ascii_idempotent (c : ascii) :
  lower_ascii (lower_ascii c) = lower_ascii c.
Proof. destruct c as [[] [] [] [] [] [] [] []]; reflexivity. Qed.

(** Lowering is idempotent: the auth type that the cortex mapping carries
    does not depend on the case of the option. *)
Lemma lower_idempotent (s : string) : lower (lower s) = lower s.
Proof.
  induction s as [| c s IH]; simpl; [reflexivity |].
  now rewrite lower_ascii_idempotent, IH.
Qed.

(** X11: for cortex with a credentials file and a profile the builder
    returns the four entries profile, auth_type, tenant_ids and creds_file:
    the auth type is the option in lower case, or "standard" when the option
    is empty, and the tenant ids are the option, or the empty list. *)
Theorem credential_builder_cortex (args : dict) (c p a ts : value) :
  getattr args "edr" = Return (VStr "cortex") ->
  getattr args "creds" = Return c -> truthy c = true ->
  getattr args "profile" = Return p -> truthy p = true ->
  getattr args "auth_type" = Return a ->
  (truthy a = false \/ exists s, a = VStr s) ->
  getattr args "tenant_ids" = Return ts ->
  credential_builder args
  = Return (VDict [("profile", p);
                   ("auth_type",
                    match a with
                    | VStr s => if truthy a then VStr (lower s) else VStr "standard"
                    | _ => VStr "standard"
                    end);
                   ("tenant_ids", if truthy ts then ts else VList []);
                   ("creds_file", c)]).
Proof.
  intros E C Tc P Tp A Ha TS. unfold credential_builder, set_if_supplied.
  rewrite E, C, P, A, TS. cbn. rewrite Tc, Tp. cbn.
  destruct Ha as [F | [s ->]].
  - rewrite F. cbn. destruct a; destruct (truthy ts); reflexivity.
  - destruct (truthy (VStr s)); cbn; destruct (truthy ts); reflexivity.
Qed.

Lemma credential_builder_cortex_witness :
  credential_builder
    (dict_set "tenant_ids" VNone
       (dict_set "auth_type" (VStr "ADVANCED")
          (dict_set "creds" (VStr "/tmp/c")
             (dict_set "profile" (VStr "x") (sample_args "cortex")))))
  = Return (VDict [("profile", VStr "x"); ("auth_type", VStr "advanced");
                   ("tenant_ids", VList []); ("creds_file", VStr "/tmp/c")]).
Proof.
  apply (credential_builder_cortex _ (VStr "/tmp/c") (VStr "x")
           (VStr "ADVANCED") VNone); try reflexivity.
  right. exists "ADVANCED". reflexivity.
Defined.

(** ** More on the product arguments *)

Lemma truthy_is_none (v : value) : truthy v = true -> is_none v = false.
Proof. destruct v; simpl; congruence. Qed.

(** X12: the product-argument builder only filters and renames: every entry
    it returns has a true value, and it is one of the options device_group,
    device_policy and sensor_group under its own name, or deep_visibility
    bound to True when the option dv is true. *)
Theorem product_arg_builder_entries (args product_args : dict) :
  product_arg_builder args = Return product_args ->
  forall k v, In (k, v) product_args ->
    truthy v = true
    /\ (In k ["device_group"; "device_policy"; "sensor_group"]
        /\ getattr args k = Return v
        \/ k = "deep_visibility" /\ v = VBool true /\ supplied args "dv" = true).
Proof.
  intros H k v Hin. unfold product_arg_builder, set_if_supplied in H.
  unfold supplied.
  destruct (getattr args "edr") as [edr | |] eqn:E; try discriminate H.
  cbn [obind] in H. destruct (eq_str edr "cbc").
  - builder_inv H. injection H as <-.
    destruct (truthy a) eqn:Ta; destruct (truthy a0) eqn:Ta0; cbn in Hin;
      rewrite ?(truthy_is_none a Ta), ?(truthy_is_none a0 Ta0) in Hin;
      cbn in Hin;
      repeat match goal with
             | H : _ \/ _ |- _ => destruct H
             | H : (_, _) = (_, _) |- _ => injection H as <- <-
             | H : False |- _ => destruct H
             end;
      (split; [assumption | left; split; [simpl; tauto | assumption]]).
  - builder_inv H; injection H as <-; cbn in Hin;
      repeat match goal with
             | T : truthy ?x = true |- _ =>
                 rewrite (truthy_is_none x T) in Hin; cbn in Hin
             end;
      try contradiction;
      destruct Hin as [Hin | []]; injection Hin as <- <-.
    + split; [assumption | left; split; [simpl; tauto | assumption]].
    + split; [reflexivity | right].
      match goal with
      | G : getattr args "dv" = Return ?x |- _ =>
          unfold getattr in G; destruct (dict_get "dv" args);
          [injection G as -> | discriminate G]
      end.
      auto.
Qed.

Lemma product_arg_builder_entries_witness :
  truthy (VList [VStr "g"]) = true
  /\ (In "sensor_group" ["device_group"; "device_policy"; "sensor_group"]
      /\ getattr s1_sensor_group_args "sensor_group" = Return (VList [VStr "g"])
      \/ "sensor_group" = "deep_visibility" /\ VList [VStr "g"] = VBool true
         /\ supplied s1_sensor_group_args "dv" = true).
Proof.
  apply (product_arg_builder_entries s1_sensor_group_args
           [("sensor_group", VList [VStr "g"])]).
  - reflexivity.
  - simpl. tauto.
Defined.

(** X13: for cbc the builder returns only product arguments that cbc
    declares, and the product-argument check of cbc passes on whatever it
    returns. *)
Theorem product_arg_builder_cbc_passes_check (args product_args : dict) :
  getattr args "edr" = Return (VStr "cbc") ->
  product_arg_builder args = Return product_args ->
  (forall k, In k (dict_keys product_args) ->
             In k ["device_group"; "device_policy"])
  /\ exists r, check_product_args_structure "cbc" product_args = Return r
               /\ dict_get "result" r = Some (VBool true).
Proof.
  intros E H. unfold product_arg_builder, set_if_supplied in H.
  rewrite E in H. cbn in H. builder_inv H. injection H as <-.
  destruct (truthy a) eqn:Ta; destruct (truthy a0) eqn:Ta0; cbn;
    rewrite ?(truthy_is_none a Ta), ?(truthy_is_none a0 Ta0); cbn;
    (split; [tauto | eexists; split; reflexivity]).
Qed.

Lemma product_arg_builder_cbc_passes_check_witness :
  (forall k, In k (dict_keys [("device_policy", VStr "strict")]) ->
             In k ["device_group"; "device_policy"])
  /\ exists r,
       check_product_args_structure "cbc" [("device_policy", VStr "strict")]
       = Return r
       /\ dict_get "result" r = Some (VBool true).
Proof.
  apply (product_arg_builder_cbc_passes_check
           (dict_set "device_policy" (VStr "strict") (sample_args "cbc"))).
  - reflexivity.
  - reflexivity.
Defined.

(** X14: with no product arguments the check passes for every backend of
    the table: the result carries the full name of the backend, the text "No
    arguments were supplied" and no incompatible arguments. *)
Theorem check_product_args_structure_empty (edr : string) (d : edr_details) :
  EDR_DEETS edr = Some d ->
  check_product_args_structure edr []
  = Return [("result", VBool true); ("edr", VStr (full_name d));
            ("required_fields", VStr "No arguments were supplied");
            ("incompatible_arguments", VNone)].
Proof.
  intros E. unfold check_product_args_structure, EDR_DEETS_item.
  rewrite E. reflexivity.
Qed.

Lemma check_product_args_structure_empty_witness :
  check_product_args_structure "dfe" []
  = Return [("result", VBool true); ("edr", VStr (full_name dfe_details));
            ("required_fields", VStr "No arguments were supplied");
            ("incompatible_arguments", VNone)].
Proof.
  apply (check_product_args_structure_empty "dfe" dfe_details). reflexivity.
Defined.

(** X15: for a backend that declares product arguments and a mapping that
    is not empty, the check passes exactly when the mapping has a declared
    name among its keys, and incompatible_arguments is the set of the declared
    names that are not keys of the mapping, or None when there is no such
    name. *)
Theorem check_product_args_structure_sets
    (edr : string) (d : edr_details) (declared : list string)
    (product_args : dict) :
  EDR_DEETS edr = Some d -> product_arguments d = Some declared ->
  product_args <> [] ->
  exists (r : dict) (b : bool),
    check_product_args_structure edr product_args = Return r
    /\ dict_get "result" r = Some (VBool b)
    /\ (b = true <->
        exists x, In x declared /\ In x (dict_keys product_args))
    /\ match dict_get "incompatible_arguments" r with
       | Some (VSet missing) =>
           missing <> []
           /\ forall x, In x missing <->
                        In x declared /\ ~ In x (dict_keys product_args)
       | Some VNone =>
           forall x, In x declared -> In x (dict_keys product_args)
       | _ => False
       end.
Proof.
  intros E P N.
  destruct (check_product_args_structure_declared edr d declared product_args
              E P N) as (r & R & Hr & Hi).
  exists r. eexists. split; [exact R |]. split; [exact Hr |]. split.
  - rewrite nonempty_spec. split.
    + intros Hne.
      destruct (set_inter (set_of declared) (set_of (dict_keys product_args)))
        as [| x rest] eqn:Ei; [congruence |].
      assert (Hx : In x (set_inter (set_of declared)
                                   (set_of (dict_keys product_args))))
        by (rewrite Ei; now left).
      apply set_inter_In in Hx. rewrite !set_of_In in Hx. eauto.
    + intros [x Hx] Hempty.
      assert (Hin : In x (set_inter (set_of declared)
                                    (set_of (dict_keys product_args))))
        by (apply set_inter_In; now rewrite !set_of_In).
      rewrite Hempty in Hin. exact Hin.
  - rewrite Hi.
    destruct (nonempty (set_diff (set_of declared)
                                 (set_of (dict_keys product_args)))) eqn:Ne.
    + split; [now apply nonempty_spec |].
      intros x. now rewrite set_diff_In, !set_of_In.
    + intros x Hx.
      destruct (mem x (dict_keys product_args)) eqn:M;
        [now apply mem_In |].
      assert (Hin : In x (set_diff (set_of declared)
                                   (set_of (dict_keys product_args)))).
      { apply set_diff_In. rewrite !set_of_In. split; [exact Hx |].
        intros Hk. apply mem_In in Hk. congruence. }
      destruct (set_diff (set_of declared) (set_of (dict_keys product_args)));
        [destruct Hin | discriminate Ne].
Qed.

Lemma check_product_args_structure_sets_witness :
  exists (r : dict) (b : bool),
    check_product_args_structure "cbc" [("device_group", VList [VStr "g"])]
    = Return r
    /\ dict_get "result" r = Some (VBool b)
    /\ (b = true <->
        exists x, In x ["device_group"; "device_policy"]
                  /\ In x (dict_keys [("device_group", VList [VStr "g"])]))
    /\ match dict_get "incompatible_arguments" r with
       | Some (VSet missing) =>
           missing <> []
           /\ forall x, In x missing <->
                        In x ["device_group"; "device_policy"]
                        /\ ~ In x (dict_keys [("device_group", VList [VStr "g"])])
       | Some VNone =>
           forall x, In x ["device_group"; "device_policy"] ->
                     In x (dict_keys [("device_group", VList [VStr "g"])])
       | _ => False
       end.
Proof.
  apply (check_product_args_structure_sets "cbc" cbc_details
           ["device_group"; "device_policy"]
           [("device_group", VList [VStr "g"])]).
  - reflexivity.
  - reflexivity.
  - discriminate.
Defined.

(** ** The option checks of [build_survey] *)

Lemma supplied_getattr (args : dict) (name : string) (v : value) :
  getattr args name = Return v -> supplied args name = truthy v.
Proof.
  unfold getattr, supplied. destruct (dict_get name args); intros H;
    [now injection H as -> | discriminate H].
Qed.

Lemma supplied_true (args : dict) (name : string) :
  supplied args name = true ->
  exists v, getattr args name = Return v /\ truthy v = true.
Proof.
  unfold getattr, supplied. destruct (dict_get name args); intros H;
    [eauto | discriminate H].
Qed.

Lemma attr_Return (args : dict) (name : string) (t t' : trace) (v : value) :
  attr args name t = (Return v, t') -> t' = t /\ getattr args name = Return v.
Proof. unfold attr. intros H. apply lift_Return in H. tauto. Qed.

Lemma yields_attr_true (args : dict) (name : string) :
  yields (attr_true args name) (supplied args name).
Proof.
  intros t x t' H. unfold attr_true in H.
  apply bind_Return in H. destruct H as (v & t1 & Ha & Hr).
  apply attr_Return in Ha. destruct Ha as [-> G].
  apply ret_Return in Hr. destruct Hr as [<- ->].
  split; [reflexivity |]. symmetry. now apply supplied_getattr.
Qed.

Lemma yields_ret (b : bool) : yields (ret b) b.
Proof. intros t x t' H. apply ret_Return in H. destruct H as [<- ->]. auto. Qed.

Lemma yields_and_then (a b : M bool) (x y : bool) :
  yields a x -> yields b y -> yields (and_then a b) (x && y).
Proof.
  intros Ha Hb t z t' H. unfold and_then in H.
  apply bind_Return in H. destruct H as (x' & t1 & H1 & H2).
  apply Ha in H1. destruct H1 as [-> ->]. destruct x.
  - apply Hb in H2. exact H2.
  - apply ret_Return in H2. destruct H2 as [<- ->]. auto.
Qed.

Lemma yields_or_else (a b : M bool) (x y : bool) :
  yields a x -> yields b y -> yields (or_else a b) (x || y).
Proof.
  intros Ha Hb t z t' H. unfold or_else in H.
  apply bind_Return in H. destruct H as (x' & t1 & H1 & H2).
  apply Ha in H1. destruct H1 as [-> ->]. destruct x.
  - apply ret_Return in H2. destruct H2 as [<- ->]. auto.
  - apply Hb in H2. exact H2.
Qed.

Lemma yields_not (a : M bool) (x : bool) : yields a x -> yields (not_ a) (negb x).
Proof.
  intros Ha t z t' H. unfold not_ in H.
  apply bind_Return in H. destruct H as (x' & t1 & H1 & H2).
  apply Ha in H1. destruct H1 as [-> ->].
  apply ret_Return in H2. destruct H2 as [<- ->]. auto.
Qed.

(** A check that lets the run go on found its condition false. *)
Lemma exit_if_Return (c : M bool) (msg : string) (t t' : trace) (u : unit) :
  exit_if c msg t = (Return u, t') -> c t = (Return false, t').
Proof.
  unfold exit_if. intros H.
  apply bind_Return in H. destruct H as (x & t1 & Hc & Hx).
  destruct x; [discriminate Hx |].
  apply ret_Return in Hx. destruct Hx as [_ ->]. exact Hc.
Qed.

Lemma exit_if_yields (c : M bool) (b : bool) (msg : string) (t t' : trace)
    (u : unit) :
  yields c b -> exit_if c msg t = (Return u, t') -> t' = t /\ b = false.
Proof.
  intros Hc H. apply exit_if_Return in H. apply Hc in H.
  destruct H as [-> <-]. auto.
Qed.

(** A check of the form [args.name and not test(args.other)] that lets the
    run go on: the option is not supplied, or the test answered yes. *)
Lemma exit_if_test_Return (args : dict) (name other : string)
    (test : value -> M bool) (msg : string) (t t' : trace) (u : unit) :
  exit_if (and_then (attr_true args name)
                    (not_ (bind (attr args other) test))) msg t
  = (Return u, t') ->
  supplied args name = true ->
  exists v, getattr args other = Return v /\ test v t = (Return true, t').
Proof.
  intros H S. apply exit_if_Return in H. unfold and_then in H.
  apply bind_Return in H. destruct H as (x & t1 & H1 & H2).
  apply yields_attr_true in H1. destruct H1 as [-> ->]. rewrite S in H2.
  unfold not_ in H2. apply bind_Return in H2.
  destruct H2 as (y & t2 & H2 & H3).
  apply ret_Return in H3. destruct H3 as [Hy ->].
  apply bind_Return in H2. destruct H2 as (v & t3 & Ha & Ht).
  apply attr_Return in Ha. destruct Ha as [-> G].
  exists v. split; [exact G |]. destruct y; [exact Ht | discriminate Hy].
Qed.

(** A test built on [os.stat] that answers: its argument is a path name or
    a descriptor, the answer is the world's, and one effect is recorded. *)
Lemma stat_query_Return (w : world) ask ask_fd ev (v : value) (t t' : trace)
    (b : bool) :
  stat_query w ask ask_fd ev v t = (Return b, t') ->
  exists a e, name_or_fd v = Return a /\ answer ask ask_fd w t a = b
              /\ t' = record t e
              /\ e = match a with PathName p => ev p | PathFd fd => EvStatFd fd end.
Proof.
  unfold stat_query. intros H.
  apply bind_Return in H. destruct H as (a & t1 & Ha & H).
  apply lift_Return in Ha. destruct Ha as [Ha ->].
  exists a. destruct a as [p | fd]; unfold query in H; injection H as <- <-;
    eexists; auto.
Qed.

(** What the option checks have established when they let the run go on. *)
Lemma validate_options_Return (w : world) (args : dict) (edr : string)
    (t t' : trace) (u : unit) :
  validate_options w args edr t = (Return u, t') ->
  (supplied args "iocfile" = true ->
   (exists ty, getattr args "ioctype" = Return ty /\ is_none ty = false)
   /\ exists v a t1, getattr args "ioc_file" = Return v
                     /\ name_or_fd v = Return a
                     /\ answer isfile fd_isfile w t1 a = true)
  /\ (supplied args "output" || supplied args "prefix")
     && supplied args "no_file" = false
  /\ supplied args "days" && supplied args "minutes" = false
  /\ (supplied args "sigmarule" || supplied args "sigmadir")
     && String.eqb edr "cortex" = false
  /\ (supplied args "sigmarule" || supplied args "sigmadir")
     && String.eqb edr "s1" && negb (supplied args "dv") = false
  /\ (supplied args "sigmarule" = true ->
      exists v a t1, getattr args "sigmarule" = Return v
                     /\ name_or_fd v = Return a
                     /\ answer isfile fd_isfile w t1 a = true)
  /\ (supplied args "sigmadir" = true ->
      exists v a t1, getattr args "sigmadir" = Return v
                     /\ name_or_fd v = Return a
                     /\ answer isdir fd_isdir w t1 a = true).
Proof.
  unfold validate_options. intros H.
  apply bind_Return in H. destruct H as (u1 & t1 & H1 & H).
  apply bind_Return in H. destruct H as (u2 & t2 & H2 & H).
  apply bind_Return in H. destruct H as (u3 & t3 & H3 & H).
  apply bind_Return in H. destruct H as (u4 & t4 & H4 & H).
  apply bind_Return in H. destruct H as (u5 & t5 & H5 & H).
  apply bind_Return in H. destruct H as (u6 & t6 & H6 & H).
  apply bind_Return in H. destruct H as (u7 & t7 & H7 & H8).
  pose proof (yields_attr_true args) as Y.
  assert (Ysigma : yields (or_else (attr_true args "sigmarule")
                                   (attr_true args "sigmadir"))
                          (supplied args "sigmarule" || supplied args "sigmadir"))
    by (apply yields_or_else; apply Y).
  split; [intros S; split |].
  - apply exit_if_Return in H1. unfold and_then in H1.
    apply bind_Return in H1. destruct H1 as (x & t0 & Ha & Hb).
    apply Y in Ha. destruct Ha as [-> ->]. rewrite S in Hb.
    apply bind_Return in Hb. destruct Hb as (ty & t0 & Ha & Hr).
    apply attr_Return in Ha. destruct Ha as [-> G].
    apply ret_Return in Hr. destruct Hr as [Hn _]. eauto.
  - destruct (exit_if_test_Return _ _ _ _ _ _ _ _ H2 S) as (v & G & Hq).
    apply stat_query_Return in Hq. destruct Hq as (a & e & Ha & Hq & _).
    eauto 6.
  - split.
    { eapply (exit_if_yields _ _ _ _ _ _ _ H3). }
    split.
    { eapply (exit_if_yields _ _ _ _ _ _ _ H4). }
    split.
    { eapply (exit_if_yields _ _ _ _ _ _ _ H5). }
    split.
    { eapply (exit_if_yields _ _ _ _ _ _ _ H6). }
    split.
    + intros S. destruct (exit_if_test_Return _ _ _ _ _ _ _ _ H7 S) as (v & G & Hq).
      apply stat_query_Return in Hq. destruct Hq as (a & e & Ha & Hq & _).
      eauto 6.
    + intros S. destruct (exit_if_test_Return _ _ _ _ _ _ _ _ H8 S) as (v & G & Hq).
      apply stat_query_Return in Hq. destruct Hq as (a & e & Ha & Hq & _).
      eauto 6.
    Unshelve.
    * apply yields_and_then; [apply yields_or_else |]; apply Y.
    * apply yields_and_then; apply Y.
    * apply yields_and_then; [exact Ysigma | apply yields_ret].
    * apply yields_and_then;
        [apply yields_and_then; [exact Ysigma | apply yields_ret] |
         apply yields_not; apply Y].
Qed.

(** When the option checks do not let the run go on, [build_survey] ends
    where they end: no specification, and nothing but reads. *)
Lemma build_survey_rejected (w : world) (args : dict) (edr : string) :
  (forall u t', validate_options w args edr [] <> (Return u, t')) ->
  exists o t,
    build_survey w args edr [] = (o, t) /\ failed o /\ Forall is_read t.
Proof.
  intros N. unfold build_survey, build_survey_payload.
  destruct (validate_options w args edr []) as [ov tv] eqn:V.
  destruct (validate_options_reads w args edr _ _ _ V) as (evs & -> & F).
  unfold bind at 1. unfold bind at 1. rewrite V.
  destruct ov as [u | msg | e].
  - destruct (N u _ eq_refl).
  - eexists; eexists. split; [reflexivity |]. simpl. auto.
  - eexists; eexists. split; [reflexivity |]. simpl. auto.
Qed.

(** X16: with a day window and a minute window both supplied,
    [build_survey] returns no specification, and it ends before anything is
    created or written. *)
Theorem build_survey_days_and_minutes (w : world) (args : dict) (edr : string) :
  supplied args "days" = true -> supplied args "minutes" = true ->
  exists o t,
    build_survey w args edr [] = (o, t) /\ failed o /\ Forall is_read t.
Proof.
  intros D M. apply build_survey_rejected. intros u t' V.
  apply validate_options_Return in V.
  destruct V as (_ & _ & V & _). rewrite D, M in V. discriminate V.
Qed.

Lemma build_survey_days_and_minutes_witness :
  exists o t,
    build_survey sample_world
      (dict_set "minutes" (VInt 30) (dict_set "days" (VInt 2) (sample_args "cbc")))
      "cbc" [] = (o, t)
    /\ failed o /\ Forall is_read t.
Proof.
  apply (build_survey_days_and_minutes sample_world
           (dict_set "minutes" (VInt 30)
              (dict_set "days" (VInt 2) (sample_args "cbc"))) "cbc");
    reflexivity.
Defined.

(** X17: with an output path or a prefix supplied together with the
    no-file flag, [build_survey] returns no specification, and it ends before
    anything is created or written. *)
Theorem build_survey_output_and_no_file (w : world) (args : dict) (edr : string) :
  supplied args "output" || supplied args "prefix" = true ->
  supplied args "no_file" = true ->
  exists o t,
    build_survey w args edr [] = (o, t) /\ failed o /\ Forall is_read t.
Proof.
  intros O N. apply build_survey_rejected. intros u t' V.
  apply validate_options_Return in V.
  destruct V as (_ & V & _). rewrite O, N in V. discriminate V.
Qed.

Lemma build_survey_output_and_no_file_witness :
  exists o t,
    build_survey sample_world
      (dict_set "no_file" (VBool true)
         (dict_set "prefix" (VStr "run1") (sample_args "cbc")))
      "cbc" [] = (o, t)
    /\ failed o /\ Forall is_read t.
Proof.
  apply (build_survey_output_and_no_file sample_world
           (dict_set "no_file" (VBool true)
              (dict_set "prefix" (VStr "run1") (sample_args "cbc"))) "cbc");
    reflexivity.
Defined.

(** X18: with a rule file or a rule directory supplied, [build_survey]
    returns no specification for the backend cortex, nor for the backend s1
    unless the option dv is true; it ends before anything is created or
    written. *)
Theorem build_survey_sigma_unsupported (w : world) (args : dict) (edr : string) :
  supplied args "sigmarule" || supplied args "sigmadir" = true ->
  edr = "cortex" \/ edr = "s1" /\ supplied args "dv" = false ->
  exists o t,
    build_survey w args edr [] = (o, t) /\ failed o /\ Forall is_read t.
Proof.
  intros S B. apply build_survey_rejected. intros u t' V.
  apply validate_options_Return in V.
  destruct V as (_ & _ & _ & V1 & V2 & _). rewrite S in V1, V2.
  destruct B as [-> | [-> D]].
  - discriminate V1.
  - rewrite D in V2. discriminate V2.
Qed.

Lemma build_survey_sigma_unsupported_witness :
  exists o t,
    build_survey sample_world
      (dict_set "sigmadir" (VStr "/rules") (sample_args "s1")) "s1" [] = (o, t)
    /\ failed o /\ Forall is_read t.
Proof.
  apply (build_survey_sigma_unsupported sample_world
           (dict_set "sigmadir" (VStr "/rules") (sample_args "s1")) "s1").
  - reflexivity.
  - right. split; reflexivity.
Defined.

(** X19: a supplied rule file that is not a file, or a supplied rule
    directory that is not a directory, makes [build_survey] return no
    specification, before anything is created or written.  The value is
    tested as [os.stat] takes it: a string as a path name, an integer as a
    file descriptor. *)
Theorem build_survey_sigma_missing (w : world) (args : dict) (edr : string) :
  (supplied args "sigmarule" = true
   /\ forall v a t, getattr args "sigmarule" = Return v ->
                    name_or_fd v = Return a ->
                    answer isfile fd_isfile w t a = false)
  \/ (supplied args "sigmadir" = true
      /\ forall v a t, getattr args "sigmadir" = Return v ->
                       name_or_fd v = Return a ->
                       answer isdir fd_isdir w t a = false) ->
  exists o t,
    build_survey w args edr [] = (o, t) /\ failed o /\ Forall is_read t.
Proof.
  intros B. apply build_survey_rejected. intros u t' V.
  apply validate_options_Return in V.
  destruct V as (_ & _ & _ & _ & _ & V1 & V2).
  destruct B as [[S N] | [S N]].
  - destruct (V1 S) as (v & a & t1 & G & A & F).
    rewrite (N v a t1 G A) in F. discriminate F.
  - destruct (V2 S) as (v & a & t1 & G & A & F).
    rewrite (N v a t1 G A) in F. discriminate F.
Qed.

Lemma build_survey_sigma_missing_witness :
  exists o t,
    build_survey sample_world
      (dict_set "sigmarule" (VInt 7) (sample_args "cbc"))
      "cbc" [] = (o, t)
    /\ failed o /\ Forall is_read t.
Proof.
  apply (build_survey_sigma_missing sample_world
           (dict_set "sigmarule" (VInt 7) (sample_args "cbc"))
           "cbc").
  left. split; [reflexivity |].
  intros v a t G A. injection G as <-. injection A as <-. reflexivity.
Defined.

(** X20: an IOC file without an IOC type ends [build_survey] at its first
    check, with the message of that check and without any effect. *)
Theorem build_survey_iocfile_without_type
    (w : world) (args : dict) (edr : string) (t : trace) :
  supplied args "iocfile" = true -> getattr args "ioctype" = Return VNone ->
  build_survey w args edr t = (Exit "--iocfile requires --ioctype", t).
Proof.
  intros S G. apply supplied_true in S. destruct S as (v & Gv & Tv).
  unfold build_survey, build_survey_payload, validate_options, exit_if,
    and_then, attr_true, attr, bind, lift, ret.
  rewrite Gv, Tv, G. reflexivity.
Qed.

Lemma build_survey_iocfile_without_type_witness :
  build_survey sample_world
    (dict_set "iocfile" (VStr "/data/iocs.txt") (sample_args "cbc")) "cbc" []
  = (Exit "--iocfile requires --ioctype", []).
Proof.
  apply (build_survey_iocfile_without_type sample_world
           (dict_set "iocfile" (VStr "/data/iocs.txt") (sample_args "cbc"))
           "cbc" []); reflexivity.
Defined.



(** ** Dictionaries with distinct keys *)

Lemma dict_get_set_same (k : string) (v : value) (d : dict) :
  dict_get k (dict_set k v d) = Some v.
Proof.
  induction d as [| [k' v'] d IH]; simpl.
  - now rewrite String.eqb_refl.
  - destruct (String.eqb k k') eqn:E; simpl; rewrite E; [reflexivity | exact IH].
Qed.

Lemma dict_get_set_other (k k' : string) (v : value) (d : dict) :
  k <> k' -> dict_get k (dict_set k' v d) = dict_get k d.
Proof.
  intros N. apply String.eqb_neq in N.
  induction d as [| [k0 v0] d IH]; simpl.
  - now rewrite N.
  - destruct (String.eqb k' k0) eqn:E; simpl.
    + apply String.eqb_eq in E. subst k0. now rewrite N.
    + now rewrite IH.
Qed.

Lemma dict_get_None (k : string) (d : dict) :
  dict_get k d = None <-> mem k (dict_keys d) = false.
Proof.
  unfold mem, dict_keys. induction d as [| [k' v'] d IH]; simpl; [tauto |].
  destruct (String.eqb k k'); simpl; [split; discriminate | exact IH].
Qed.

Lemma dict_keys_set (k : string) (v : value) (d : dict) :
  dict_keys (dict_set k v d)
  = if mem k (dict_keys d) then dict_keys d else (dict_keys d ++ [k])%list.
Proof.
  unfold mem, dict_keys. induction d as [| [k' v'] d IH]; simpl; [reflexivity |].
  destruct (String.eqb k k') eqn:E; simpl; [reflexivity |].
  rewrite IH. now destruct (existsb (String.eqb k) (map fst d)).
Qed.

Lemma mem_app_one (x k : string) (l : list string) :
  mem x (l ++ [k]) = mem x l || String.eqb x k.
Proof.
  unfold mem. rewrite existsb_app. simpl. now rewrite orb_false_r.
Qed.

Lemma distinct_app_one (k : string) (l : list string) :
  distinct l = true -> mem k l = false -> distinct (l ++ [k]) = true.
Proof.
  induction l as [| x l IH]; simpl; intros D M; [reflexivity |].
  apply andb_true_iff in D. destruct D as [Dx D].
  unfold mem in M. simpl in M. apply orb_false_iff in M. destruct M as [Mx M].
  rewrite mem_app_one. apply negb_true_iff in Dx. rewrite Dx.
  rewrite String.eqb_sym, Mx. simpl. now apply IH.
Qed.

Lemma distinct_set (k : string) (v : value) (d : dict) :
  distinct (dict_keys d) = true -> distinct (dict_keys (dict_set k v d)) = true.
Proof.
  intros D. rewrite dict_keys_set. destruct (mem k (dict_keys d)) eqn:M;
    [exact D | now apply distinct_app_one].
Qed.

(** What [pop] leaves: the value of the key, the other bindings, and keys
    that are still distinct and no longer hold the key. *)
Lemma dict_pop_Some (k : string) (d d' : dict) (v : value) :
  dict_pop k d = Some (v, d') ->
  dict_get k d = Some v
  /\ (forall k', k' <> k -> dict_get k' d' = dict_get k' d)
  /\ (forall x, mem x (dict_keys d') = true -> mem x (dict_keys d) = true)
  /\ (distinct (dict_keys d) = true ->
      distinct (dict_keys d') = true /\ mem k (dict_keys d') = false).
Proof.
  revert d' v. induction d as [| [k0 v0] d IH]; simpl; intros d' v H;
    [discriminate H |].
  destruct (String.eqb k k0) eqn:E.
  - injection H as <- <-. apply String.eqb_eq in E. subst k0.
    split; [reflexivity |]. split.
    + intros k' N. apply String.eqb_neq in N. now rewrite N.
    + split.
      * intros x M. unfold mem. simpl. unfold mem in M. rewrite M.
        apply orb_true_r.
      * intros D. apply andb_true_iff in D. destruct D as [Dk D].
        apply negb_true_iff in Dk. auto.
  - destruct (dict_pop k d) as [[w d''] |] eqn:P; [| discriminate H].
    injection H as <- <-.
    destruct (IH d'' w eq_refl) as (G & O & S & Dd).
    split; [exact G |]. split.
    + intros k' N. simpl. destruct (String.eqb k' k0); [reflexivity | now apply O].
    + split.
      * intros x M. unfold mem in *. simpl in *.
        destruct (String.eqb x k0); [reflexivity |]. simpl in *. now apply S.
      * intros D. simpl in *. apply andb_true_iff in D. destruct D as [D0 D].
        destruct (Dd D) as [D1 M1]. split.
        -- rewrite D1, andb_true_r. apply negb_true_iff.
           apply negb_true_iff in D0.
           destruct (mem k0 (dict_keys d'')) eqn:M; [| reflexivity].
           apply S in M. congruence.
        -- unfold mem in *. simpl. now rewrite E, M1.
Qed.

Lemma dict_pop_present (k : string) (d : dict) :
  mem k (dict_keys d) = true -> exists v d', dict_pop k d = Some (v, d').
Proof.
  unfold mem, dict_keys. induction d as [| [k0 v0] d IH]; simpl; intros M;
    [discriminate M |].
  destruct (String.eqb k k0); [eauto |]. simpl in M.
  destruct (IH M) as (v & d' & ->). eauto.
Qed.

(** One round of the loop over the options, seen from one key. *)
Lemma merge_option_get (payload : dict) (k0 k : string) (v0 : value) :
  dict_get k (merge_option payload (k0, v0))
  = if String.eqb k k0
    then match dict_get k payload with
         | Some dv => if is_none v0 then Some dv else Some v0
         | None => None
         end
    else dict_get k payload.
Proof.
  unfold merge_option.
  destruct (String.eqb_spec k k0) as [-> | N].
  - destruct (mem k0 (dict_keys payload)) eqn:M.
    + destruct (dict_get k0 payload) as [dv |] eqn:G;
        [| apply dict_get_None in G; congruence].
      destruct (is_none v0); simpl.
      * destruct (dict_pop_present k0 payload M) as (v & d' & P). rewrite P.
        destruct (dict_pop_Some _ _ _ _ P) as (G' & _).
        rewrite dict_get_set_same. congruence.
      * apply dict_get_set_same.
    + apply dict_get_None in M. now rewrite M.
  - destruct (mem k0 (dict_keys payload)) eqn:M; [| reflexivity].
    destruct (is_none v0); simpl.
    + destruct (dict_pop_present k0 payload M) as (v & d' & P). rewrite P.
      destruct (dict_pop_Some _ _ _ _ P) as (_ & O & _).
      rewrite dict_get_set_other by exact N. now apply O.
    + now apply dict_get_set_other.
Qed.

Lemma merge_option_distinct (payload : dict) (kv : string * value) :
  distinct (dict_keys payload) = true ->
  distinct (dict_keys (merge_option payload kv)) = true.
Proof.
  intros D. destruct kv as [k0 v0]. unfold merge_option.
  destruct (mem k0 (dict_keys payload)) eqn:M; [| exact D].
  destruct (is_none v0); simpl; [| now apply distinct_set].
  destruct (dict_pop_present k0 payload M) as (v & d' & P). rewrite P.
  destruct (dict_pop_Some _ _ _ _ P) as (_ & _ & _ & Dd).
  apply distinct_set. now apply Dd.
Qed.

Lemma merge_options_distinct (args : dict) :
  distinct (dict_keys (merge_options args)) = true.
Proof.
  unfold merge_options.
  assert (D : distinct (dict_keys survey_payload_init) = true) by reflexivity.
  revert D. generalize survey_payload_init.
  induction args as [| kv args IH]; intros payload D; simpl; [exact D |].
  apply IH. now apply merge_option_distinct.
Qed.

(** The loop over the options, seen from one key: an option that is there
    and not None replaces the value, every other value stays. *)
Lemma merge_fold_get (args payload : dict) (k : string) :
  distinct (dict_keys args) = true ->
  dict_get k (fold_left merge_option args payload)
  = match dict_get k payload with
    | Some dv =>
        match dict_get k args with
        | Some v => if is_none v then Some dv else Some v
        | None => Some dv
        end
    | None => None
    end.
Proof.
  revert payload. induction args as [| [k0 v0] args IH]; intros payload D.
  - simpl. now destruct (dict_get k payload).
  - simpl in D. apply andb_true_iff in D. destruct D as [D0 D].
    apply negb_true_iff in D0. apply dict_get_None in D0.
    cbn [fold_left dict_get]. rewrite (IH _ D), merge_option_get.
    destruct (String.eqb_spec k k0) as [-> | N]; [| reflexivity].
    rewrite D0. destruct (dict_get k0 payload); [| reflexivity].
    now destruct (is_none v0).
Qed.

Lemma merge_options_get (args : dict) (k : string) :
  distinct (dict_keys args) = true ->
  mem k (dict_keys survey_payload_init) = true ->
  dict_get k (merge_options args) = option_or_default args k.
Proof.
  intros D M. unfold merge_options, option_or_default.
  rewrite (merge_fold_get args _ k D).
  destruct (dict_get k survey_payload_init) eqn:G;
    [reflexivity | apply dict_get_None in G; congruence].
Qed.

(** The final comprehension, seen from one key. *)
Lemma dict_get_drop_none (d : dict) (k : string) :
  distinct (dict_keys d) = true ->
  dict_get k (drop_none d) = without_none (dict_get k d).
Proof.
  unfold drop_none. induction d as [| [k0 v0] d IH]; intros D;
    [reflexivity |].
  cbn [dict_keys map fst distinct] in D. fold (dict_keys d) in D.
  apply andb_true_iff in D. destruct D as [D0 D]. apply negb_true_iff in D0.
  apply dict_get_None in D0. specialize (IH D).
  cbn [filter snd dict_get].
  destruct (String.eqb k k0) eqn:Ek.
  - apply String.eqb_eq in Ek. subst k0.
    destruct (is_none v0) eqn:E; cbn [negb].
    + rewrite IH, D0. cbn [without_none]. now rewrite E.
    + cbn [dict_get without_none]. now rewrite String.eqb_refl, E.
  - destruct (is_none v0); cbn [negb dict_get]; [| rewrite Ek]; exact IH.
Qed.

(** ** What [build_survey] puts into the specification *)

Lemma getattr_set_other (args : dict) (k name : string) (v : value) :
  name <> k -> getattr (dict_set k v args) name = getattr args name.
Proof. intros N. unfold getattr. now rewrite dict_get_set_other. Qed.

(** The only option that [build_survey] ever replaces is deffile. *)
Lemma resolve_deffile_Return (w : world) (log : string) (args args' : dict)
    (files : list value) (t t' : trace) :
  resolve_deffile w log args t = (Return (args', files), t') ->
  forall name, name <> "deffile" -> getattr args' name = getattr args name.
Proof.
  unfold resolve_deffile. intros H name N.
  apply bind_Return in H. destruct H as ([] & t1 & _ & H).
  - apply bind_Return in H. destruct H as (deffile & t2 & _ & H).
    apply bind_Return in H. destruct H as (found & t3 & _ & H).
    apply bind_Return in H. destruct H as (args0 & t4 & Ha & H).
    apply bind_Return in H. destruct H as (deffile' & t5 & _ & H).
    apply ret_Return in H. destruct H as [H _]. injection H as <- _.
    destruct found; cbn [negb] in Ha.
    + apply ret_Return in Ha. destruct Ha as [<- _]. reflexivity.
    + apply bind_Return in Ha. destruct Ha as (d & t6 & _ & Ha).
      apply bind_Return in Ha. destruct Ha as (p & t7 & _ & Ha).
      apply bind_Return in Ha. destruct Ha as ([] & t8 & _ & Ha);
        [| discriminate Ha].
      apply bind_Return in Ha. destruct Ha as (u & t9 & _ & Ha).
      apply ret_Return in Ha. destruct Ha as [<- _].
      now apply getattr_set_other.
  - apply ret_Return in H. destruct H as [H _]. injection H as <- _.
    reflexivity.
Qed.

Lemma product_arg_builder_same (args args' : dict) :
  (forall name, name <> "deffile" -> getattr args' name = getattr args name) ->
  product_arg_builder args' = product_arg_builder args.
Proof.
  intros S. unfold product_arg_builder, set_if_supplied.
  rewrite !S by discriminate. reflexivity.
Qed.

Lemma supplied_same (args args' : dict) (name : string) :
  getattr args' name = getattr args name ->
  supplied args' name = supplied args name.
Proof.
  unfold getattr, supplied.
  destruct (dict_get name args'); destruct (dict_get name args); intros H;
    try discriminate H; [now injection H as -> | reflexivity].
Qed.

(** What the IOC step leaves: the payload as it was when no IOC file is
    supplied, and otherwise the three IOC entries made from the file. *)
Lemma load_iocs_Return (w : world) (args payload payload' : dict)
    (t t' : trace) :
  load_iocs w args payload t = (Return payload', t') ->
  supplied args "iocfile" = false /\ payload' = payload
  \/ exists p data ty,
       getattr args "iocfile" = Return (VStr p)
       /\ readlines w t p = Some data
       /\ getattr args "ioctype" = Return ty
       /\ payload'
          = dict_update [("ioc_source", VStr (basename p));
                         ("ioc_list", VList (map (fun x => VStr (strip x)) data));
                         ("ioc_type", ty)] payload.
Proof.
  unfold load_iocs. intros H.
  apply bind_Return in H. destruct H as (s & t1 & Hs & H).
  apply yields_attr_true in Hs. destruct Hs as [-> ->].
  destruct (supplied args "iocfile").
  - right.
    apply bind_Return in H. destruct H as (iocfile & t1 & Ha & H).
    apply attr_Return in Ha. destruct Ha as [-> G].
    apply bind_Return in H. destruct H as (ioc_file & t2 & Hr & H).
    apply bind_Return in H. destruct H as (iocfile' & t3 & Ha & H).
    apply attr_Return in Ha. destruct Ha as [-> G'].
    apply bind_Return in H. destruct H as (name & t3 & Hn & H).
    apply lift_Return in Hn. destruct Hn as [Hn ->].
    rewrite G in G'. injection G' as <-.
    destruct iocfile; try discriminate Hn. injection Hn as ->.
    unfold open_file, bind, lift, name_or_fd in Hr.
    destruct (readlines w t name) as [lines |] eqn:R; [| discriminate Hr].
    injection Hr as <- <-.
    apply bind_Return in H. destruct H as (data & t3 & Hd & H).
    apply ret_Return in Hd. destruct Hd as [<- ->].
    apply bind_Return in H. destruct H as (ty & t3 & Ha & H).
    apply attr_Return in Ha. destruct Ha as [-> Gt].
    apply ret_Return in H. destruct H as [<- _].
    exists name, lines, ty. auto.
  - left. apply ret_Return in H. destruct H as [<- _]. auto.
Qed.

(** The rule list: the rule file first, when one is supplied, then the
    [.yml] files of the walk over the rule directory. *)
Lemma resolve_sigma_rules_Return (w : world) (args : dict)
    (rules : list value) (t t' : trace) :
  resolve_sigma_rules w args t = (Return rules, t') ->
  exists rule found,
    getattr args "sigmarule" = Return rule
    /\ rules = ((if truthy rule then [rule] else []) ++ found)%list
    /\ (supplied args "sigmadir" = false /\ found = []
        \/ exists p, getattr args "sigmadir" = Return (VStr p)
                     /\ found = walk_files ".yml" (walk w t p)).
Proof.
  unfold resolve_sigma_rules. intros H.
  apply bind_Return in H. destruct H as (s & t1 & Hs & H).
  pose proof Hs as Hs'. apply yields_attr_true in Hs'. destruct Hs' as [-> ->].
  unfold attr_true in Hs. apply bind_Return in Hs.
  destruct Hs as (rule & t1 & Ha & Hr).
  apply attr_Return in Ha. destruct Ha as [-> G].
  apply ret_Return in Hr. destruct Hr as [Hr _].
  rewrite (supplied_getattr _ _ _ G) in H.
  apply bind_Return in H. destruct H as (first & t1 & Hf & H).
  assert (Hfirst : first = (if truthy rule then [rule] else []) /\ t1 = t).
  { destruct (truthy rule).
    - apply bind_Return in Hf. destruct Hf as (r & t2 & Ha & Hf).
      apply attr_Return in Ha. destruct Ha as [-> G'].
      apply ret_Return in Hf. destruct Hf as [<- ->].
      rewrite G in G'. now injection G' as <-.
    - apply ret_Return in Hf. destruct Hf as [<- ->]. auto. }
  destruct Hfirst as [-> ->].
  apply bind_Return in H. destruct H as (s & t1 & Hs & H).
  apply yields_attr_true in Hs. destruct Hs as [-> ->].
  exists rule. destruct (supplied args "sigmadir").
  - apply bind_Return in H. destruct H as (sigmadir & t1 & Ha & H).
    apply attr_Return in Ha. destruct Ha as [-> Gd].
    apply bind_Return in H. destruct H as (entries & t2 & Hw & H).
    apply ret_Return in H. destruct H as [<- _].
    destruct sigmadir; try discriminate Hw.
    unfold os_walk, bind, lift, as_path in Hw. injection Hw as <- _.
    eexists. split; [exact G |]. split; [reflexivity |]. right. eauto.
  - apply ret_Return in H. destruct H as [<- _].
    exists []. rewrite app_nil_r. auto.
Qed.

(** A returned specification, taken apart: the checks passed, and the
    specification is the merged options with the rule list, the IOC entries
    and the product arguments put in, without the entries that are None. *)
Lemma build_survey_assembled (w : world) (args : dict) (edr : string)
    (spec : dict) (t0 t : trace) :
  build_survey w args edr t0 = (Return spec, t) ->
  exists (args' : dict) (rules : list value) (payload : dict) (pa : dict)
         (t1 t2 t3 : trace),
    validate_options w args edr t0 = (Return tt, t1)
    /\ (forall name, name <> "deffile" ->
                     getattr args' name = getattr args name)
    /\ resolve_sigma_rules w args' t2 = (Return rules, t3)
    /\ load_iocs w args'
         (if truthy (VList rules)
          then dict_set "sigma_rules" (VList rules) (merge_options args)
          else merge_options args) t3
       = (Return payload, t)
    /\ product_arg_builder args = Return pa
    /\ spec = drop_none (dict_set "product_args" (VDict pa) payload).
Proof.
  intros H. apply build_survey_Return in H.
  destruct H as (final & H & ->). unfold build_survey_payload in H.
  apply bind_Return in H. destruct H as ([] & t1 & Hv & H).
  apply bind_Return in H. destruct H as (log & t1' & _ & H).
  unfold assemble_payload in H.
  apply bind_Return in H. destruct H as ([args' files] & t1'' & Hd & H).
  apply bind_Return in H. destruct H as (files' & t2 & _ & H).
  apply bind_Return in H. destruct H as (rules & t3 & Hs & H).
  apply bind_Return in H. destruct H as (payload & t4 & Hi & H).
  apply bind_Return in H. destruct H as (pa & t5 & Hp & H).
  apply lift_Return in Hp. destruct Hp as [Hp ->].
  apply ret_Return in H. destruct H as [<- ->].
  pose proof (resolve_deffile_Return _ _ _ _ _ _ _ Hd) as Same.
  rewrite (product_arg_builder_same args args' Same) in Hp.
  exists args', rules, payload, pa, t1, t2, t3. cbn [truthy] in Hi. auto 10.
Qed.

(** The keys of the payload stay distinct through the IOC step. *)
Lemma load_iocs_distinct (w : world) (args payload payload' : dict)
    (t t' : trace) :
  load_iocs w args payload t = (Return payload', t') ->
  distinct (dict_keys payload) = true -> distinct (dict_keys payload') = true.
Proof.
  intros H D. apply load_iocs_Return in H.
  destruct H as [[_ ->] | (p & data & ty & _ & _ & _ & ->)]; [exact D |].
  unfold dict_update. cbn [fold_left fst snd]. now repeat apply distinct_set.
Qed.

(** The IOC step leaves every key but its three alone. *)
Lemma load_iocs_get (w : world) (args payload payload' : dict)
    (t t' : trace) (k : string) :
  load_iocs w args payload t = (Return payload', t') ->
  k <> "ioc_source" -> k <> "ioc_list" -> k <> "ioc_type" ->
  dict_get k payload' = dict_get k payload.
Proof.
  intros H N1 N2 N3. apply load_iocs_Return in H.
  destruct H as [[_ ->] | (p & data & ty & _ & _ & _ & ->)]; [reflexivity |].
  unfold dict_update. cbn [fold_left fst snd].
  now rewrite !dict_get_set_other.
Qed.

(** X22: the options that only the caller decides go through unchanged.
    For each of prefix, days, minutes, limit, hostname, username, query,
    output, no_file, no_progress, log_dir, log, definitions, products_args and
    output_format the returned specification holds the option when it is
    there and not None, else the default (True for no_file, False for
    no_progress, "csv" for output_format), and leaves the key out when that is
    None. *)
Theorem build_survey_generic_options (w : world) (args : dict) (edr : string)
    (spec : dict) (t : trace) (k : string) :
  distinct (dict_keys args) = true ->
  build_survey w args edr [] = (Return spec, t) ->
  In k generic_keys ->
  dict_get k spec = without_none (option_or_default args k).
Proof.
  intros D H Hk. apply build_survey_assembled in H.
  destruct H as (args' & rules & payload & pa & t1 & t2 & t3
                 & _ & _ & _ & Hi & _ & ->).
  assert (Dm := merge_options_distinct args).
  assert (Ds : distinct (dict_keys
                 (if match rules with [] => false | _ => true end
                  then dict_set "sigma_rules" (VList rules) (merge_options args)
                  else merge_options args)) = true)
    by (destruct rules; [exact Dm | now apply distinct_set]).
  rewrite dict_get_drop_none
    by (apply distinct_set; exact (load_iocs_distinct _ _ _ _ _ _ Hi Ds)).
  f_equal.
  assert (N : k <> "product_args" /\ k <> "ioc_source" /\ k <> "ioc_list"
              /\ k <> "ioc_type" /\ k <> "sigma_rules"
              /\ mem k (dict_keys survey_payload_init) = true).
  { unfold generic_keys in Hk. simpl in Hk.
    repeat (destruct Hk as [<- | Hk];
            [repeat split; try discriminate; reflexivity |]).
    destruct Hk. }
  destruct N as (N1 & N2 & N3 & N4 & N5 & M).
  rewrite dict_get_set_other by exact N1.
  rewrite (load_iocs_get _ _ _ _ _ _ k Hi N2 N3 N4).
  rewrite <- (merge_options_get args k D M).
  destruct rules; [reflexivity | now apply dict_get_set_other].
Qed.

Lemma build_survey_generic_options_witness :
  dict_get "no_progress" sample_spec
  = without_none (option_or_default (sample_args "cbc") "no_progress").
Proof.
  apply (build_survey_generic_options sample_world (sample_args "cbc") "cbc"
           sample_spec sample_trace "no_progress").
  - reflexivity.
  - reflexivity.
  - simpl. tauto.
Defined.

(** X23: a returned specification always has the entry product_args, and
    it is the mapping that the product-argument builder makes of the
    options, empty or not. *)
Theorem build_survey_product_args (w : world) (args : dict) (edr : string)
    (spec : dict) (t : trace) :
  build_survey w args edr [] = (Return spec, t) ->
  exists pa, product_arg_builder args = Return pa
             /\ dict_get "product_args" spec = Some (VDict pa).
Proof.
  intros H. apply build_survey_assembled in H.
  destruct H as (args' & rules & payload & pa & t1 & t2 & t3
                 & _ & _ & _ & Hi & Hp & ->).
  exists pa. split; [exact Hp |].
  assert (Dm := merge_options_distinct args).
  assert (Ds : distinct (dict_keys
                 (if match rules with [] => false | _ => true end
                  then dict_set "sigma_rules" (VList rules) (merge_options args)
                  else merge_options args)) = true)
    by (destruct rules; [exact Dm | now apply distinct_set]).
  rewrite dict_get_drop_none
    by (apply distinct_set; exact (load_iocs_distinct _ _ _ _ _ _ Hi Ds)).
  now rewrite dict_get_set_same.
Qed.

Lemma build_survey_product_args_witness :
  exists pa, product_arg_builder (sample_args "cbc") = Return pa
             /\ dict_get "product_args" sample_spec = Some (VDict pa).
Proof.
  apply (build_survey_product_args sample_world (sample_args "cbc") "cbc"
           sample_spec sample_trace).
  reflexivity.
Defined.

(** X24: when an IOC file is supplied, a returned specification holds its
    three IOC entries: ioc_source is the base name of the path, ioc_list the
    lines of the file in file order, each stripped of the white space around
    it, and ioc_type the IOC type, which is not None. *)
Theorem build_survey_iocs (w : world) (args : dict) (edr : string)
    (spec : dict) (t : trace) :
  build_survey w args edr [] = (Return spec, t) ->
  supplied args "iocfile" = true ->
  exists (p : string) (data : list string) (ty : value) (t1 : trace),
    getattr args "iocfile" = Return (VStr p)
    /\ readlines w t1 p = Some data
    /\ getattr args "ioctype" = Return ty /\ ty <> VNone
    /\ dict_get "ioc_source" spec = Some (VStr (basename p))
    /\ dict_get "ioc_list" spec
       = Some (VList (map (fun x => VStr (strip x)) data))
    /\ dict_get "ioc_type" spec = Some ty.
Proof.
  intros H S. apply build_survey_assembled in H.
  destruct H as (args' & rules & payload & pa & t1 & t2 & t3
                 & Hv & Same & _ & Hi & _ & ->).
  apply validate_options_Return in Hv. destruct Hv as (Hv & _).
  destruct (Hv S) as ((ty & Gt & Nt) & _).
  assert (Dm := merge_options_distinct args).
  assert (Ds : distinct (dict_keys
                 (if match rules with [] => false | _ => true end
                  then dict_set "sigma_rules" (VList rules) (merge_options args)
                  else merge_options args)) = true)
    by (destruct rules; [exact Dm | now apply distinct_set]).
  assert (Dp := load_iocs_distinct _ _ _ _ _ _ Hi Ds).
  apply load_iocs_Return in Hi.
  destruct Hi as [[F _] | (p & data & ty' & Gp & R & Gt' & ->)].
  - rewrite (supplied_same args args' "iocfile") in F
      by (apply Same; discriminate). congruence.
  - rewrite Same in Gp, Gt' by discriminate.
    rewrite Gt in Gt'. injection Gt' as <-.
    exists p, data, ty, t3. split; [exact Gp |]. split; [exact R |].
    split; [exact Gt |]. split; [destruct ty; simpl in Nt; congruence |].
    rewrite !dict_get_drop_none by (now apply distinct_set).
    unfold dict_update. cbn [fold_left fst snd].
    repeat split.
    + rewrite !dict_get_set_other by discriminate.
      now rewrite dict_get_set_same.
    + rewrite !dict_get_set_other by discriminate.
      now rewrite dict_get_set_same.
    + rewrite dict_get_set_other by discriminate.
      rewrite dict_get_set_same. cbn [without_none]. now rewrite Nt.
Qed.

Lemma build_survey_iocs_witness :
  exists (p : string) (data : list string) (ty : value) (t1 : trace),
    getattr
      (dict_set "ioc_file" (VStr "/data/iocs.txt")
         (dict_set "ioctype" (VStr "ipaddr")
            (dict_set "iocfile" (VStr "/data/iocs.txt") (sample_args "cbc"))))
      "iocfile" = Return (VStr p)
    /\ readlines sample_world t1 p = Some data
    /\ getattr
         (dict_set "ioc_file" (VStr "/data/iocs.txt")
            (dict_set "ioctype" (VStr "ipaddr")
               (dict_set "iocfile" (VStr "/data/iocs.txt") (sample_args "cbc"))))
         "ioctype" = Return ty
    /\ ty <> VNone
    /\ dict_get "ioc_source"
         [("hostname", VStr EmptyString); ("no_file", VBool false);
          ("no_progress", VBool false); ("log_dir", VStr "logs");
          ("ioc_list", VList [VStr "1.2.3.4"; VStr "evil.example"]);
          ("ioc_source", VStr "iocs.txt"); ("ioc_type", VStr "ipaddr");
          ("output_format", VStr "csv"); ("product_args", VDict [])]
       = Some (VStr (basename p))
    /\ dict_get "ioc_list"
         [("hostname", VStr EmptyString); ("no_file", VBool false);
          ("no_progress", VBool false); ("log_dir", VStr "logs");
          ("ioc_list", VList [VStr "1.2.3.4"; VStr "evil.example"]);
          ("ioc_source", VStr "iocs.txt"); ("ioc_type", VStr "ipaddr");
          ("output_format", VStr "csv"); ("product_args", VDict [])]
       = Some (VList (map (fun x => VStr (strip x)) data))
    /\ dict_get "ioc_type"
         [("hostname", VStr EmptyString); ("no_file", VBool false);
          ("no_progress", VBool false); ("log_dir", VStr "logs");
          ("ioc_list", VList [VStr "1.2.3.4"; VStr "evil.example"]);
          ("ioc_source", VStr "iocs.txt"); ("ioc_type", VStr "ipaddr");
          ("output_format", VStr "csv"); ("product_args", VDict [])]
       = Some ty.
Proof.
  apply (build_survey_iocs sample_world _ "cbc" _
           [EvIsFile "/data/iocs.txt"; EvMakedirs "logs";
            EvOpenLog "logs/20240101000000.cbc.log"; EvRead "/data/iocs.txt"]).
  - reflexivity.
  - reflexivity.
Defined.

Lemma walk_files_In (ext : string)
    (entries : list (string * list string * list string)) (v : value) :
  In v (walk_files ext entries) <->
  exists root_dir dirs files filename,
    In (root_dir, dirs, files) entries /\ In filename files
    /\ snd (splitext filename) = ext
    /\ v = VStr (join root_dir filename).
Proof.
  unfold walk_files. rewrite in_flat_map. split.
  - intros [[[root_dir dirs] files] [He Hv]].
    apply in_map_iff in Hv. destruct Hv as (filename & <- & Hf).
    apply filter_In in Hf. destruct Hf as [Hf Hx].
    apply String.eqb_eq in Hx. exists root_dir, dirs, files, filename. auto.
  - intros (root_dir & dirs & files & filename & He & Hf & Hx & ->).
    exists (root_dir, dirs, files). split; [exact He |].
    apply in_map_iff. exists filename. split; [reflexivity |].
    apply filter_In. split; [exact Hf | now apply String.eqb_eq].
Qed.

(** X25: the rule list of a returned specification is the supplied rule
    file first, then the files found by the walk over the supplied rule
    directory; each of these is a file of the walk whose extension is [.yml],
    joined to its directory.  When the list is not empty it is the entry
    sigma_rules. *)
Theorem build_survey_sigma_rules (w : world) (args : dict) (edr : string)
    (spec : dict) (t : trace) :
  build_survey w args edr [] = (Return spec, t) ->
  exists (rule : value) (found : list value),
    getattr args "sigmarule" = Return rule
    /\ (supplied args "sigmadir" = false /\ found = []
        \/ exists p t1,
             getattr args "sigmadir" = Return (VStr p)
             /\ forall v, In v found <->
                  exists root_dir dirs files filename,
                    In (root_dir, dirs, files) (walk w t1 p)
                    /\ In filename files
                    /\ snd (splitext filename) = ".yml"
                    /\ v = VStr (join root_dir filename))
    /\ let rules := ((if truthy rule then [rule] else []) ++ found)%list in
       rules <> [] -> dict_get "sigma_rules" spec = Some (VList rules).
Proof.
  intros H. apply build_survey_assembled in H.
  destruct H as (args' & rules & payload & pa & t1 & t2 & t3
                 & _ & Same & Hs & Hi & _ & ->).
  assert (Dm := merge_options_distinct args).
  assert (Ds : distinct (dict_keys
                 (if match rules with [] => false | _ => true end
                  then dict_set "sigma_rules" (VList rules) (merge_options args)
                  else merge_options args)) = true)
    by (destruct rules; [exact Dm | now apply distinct_set]).
  assert (Dp := load_iocs_distinct _ _ _ _ _ _ Hi Ds).
  apply resolve_sigma_rules_Return in Hs.
  destruct Hs as (rule & found & G & -> & Hd).
  rewrite Same in G by discriminate.
  exists rule, found. split; [exact G |]. split.
  - destruct Hd as [[F ->] | (p & Gp & ->)].
    + left. rewrite (supplied_same args args' "sigmadir") in F
        by (apply Same; discriminate). auto.
    + right. rewrite Same in Gp by discriminate. exists p, t2.
      split; [exact Gp |]. intros v. apply walk_files_In.
  - intros rules Hne.
    rewrite dict_get_drop_none by (now apply distinct_set).
    rewrite dict_get_set_other by discriminate.
    rewrite (load_iocs_get _ _ _ _ _ _ "sigma_rules" Hi) by discriminate.
    subst rules.
    destruct ((if truthy rule then [rule] else []) ++ found)%list;
      [congruence |].
    cbn [truthy]. now rewrite dict_get_set_same.
Qed.

Lemma build_survey_sigma_rules_witness :
  exists (rule : value) (found : list value),
    getattr (dict_set "sigmadir" (VStr "/rules") (sample_args "cbc"))
      "sigmarule" = Return rule
    /\ (supplied (dict_set "sigmadir" (VStr "/rules") (sample_args "cbc"))
          "sigmadir" = false /\ found = []
        \/ exists p t1,
             getattr (dict_set "sigmadir" (VStr "/rules") (sample_args "cbc"))
               "sigmadir" = Return (VStr p)
             /\ forall v, In v found <->
                  exists root_dir dirs files filename,
                    In (root_dir, dirs, files) (walk sample_world t1 p)
                    /\ In filename files
                    /\ snd (splitext filename) = ".yml"
                    /\ v = VStr (join root_dir filename))
    /\ let rules := ((if truthy rule then [rule] else []) ++ found)%list in
       rules <> [] ->
       dict_get "sigma_rules"
         [("hostname", VStr EmptyString); ("no_file", VBool false);
          ("no_progress", VBool false); ("log_dir", VStr "logs");
          ("sigma_rules", VList [VStr "/rules/a.yml"; VStr "/rules/sub/c.yml"]);
          ("output_format", VStr "csv"); ("product_args", VDict [])]
       = Some (VList rules).
Proof.
  apply (build_survey_sigma_rules sample_world
           (dict_set "sigmadir" (VStr "/rules") (sample_args "cbc")) "cbc" _
           [EvIsDir "/rules"; EvMakedirs "logs";
            EvOpenLog "logs/20240101000000.cbc.log"; EvWalk "/rules"]).
  reflexivity.
Defined.






(** ** Where [build_survey] writes *)




